(** * Adaptive network optimisation and transfer tuning

    A shallow embedding of [tiktok_uploader/network_utils.py],
    [tiktok_uploader/system_tuner.py] and of the tuning branch of [cli.py],
    followed by the properties of the specification that concern them.

    Conventions of the embedding.
    - A Python [float] is a [pyfloat]: a finite value is the rational it
      denotes, next to the two infinities and NaN.  Arithmetic on finite
      values is exact; a power too large for a float ([float_overflows]) and
      a length too long for a duration ([fits_time]) raise as in CPython.
    - An [exn] is an instance of Python's [Exception]; every handler of the
      three files is [except Exception] (or wider), so it catches every [exn].
    - Everything outside the process (clock, network, sub-processes, file
      system, privileges) is a [Platform] over an abstract [host] state;
      code that touches it passes a [world] along.
    - [log_time] writes a time-stamped line to the console and does nothing
      else; its calls are left out.  The [print] of the dry-run listing is
      kept. *)

From Stdlib Require Import ZArith QArith Qround Qpower List String Ascii Bool Lia.
From Stdlib Require Import DecimalString Lqa Qabs.
Import ListNotations.

Local Open Scope Z_scope.
Local Open Scope string_scope.

(** ** Python values *)

Module Py.

Record exn := Exn { exc_class : string; exc_msg : string }.

Inductive pyresult (A : Type) :=
| Ok (a : A)
| Raise (e : exn).
Arguments Ok {A} a.
Arguments Raise {A} e.

Inductive pyfloat :=
| Finite (q : Q)
| PosInf
| NegInf
| NaN.

Definition is_lt (c : comparison) : bool :=
  match c with Lt => true | _ => false end.

(** [a < b] on floats; any comparison with NaN is false. *)
Definition flt (a b : pyfloat) : bool :=
  match a, b with
  | NaN, _ | _, NaN => false
  | Finite x, Finite y => is_lt (x ?= y)%Q
  | Finite _, PosInf => true
  | NegInf, Finite _ => true
  | NegInf, PosInf => true
  | _, _ => false
  end.

(** [a != b]. *)
Definition fne (a b : pyfloat) : bool :=
  match a, b with
  | Finite x, Finite y => negb (Qeq_bool x y)
  | PosInf, PosInf => false
  | NegInf, NegInf => false
  | _, _ => true
  end.

Definition fadd (a b : pyfloat) : pyfloat :=
  match a, b with
  | NaN, _ | _, NaN => NaN
  | Finite x, Finite y => Finite (x + y)
  | PosInf, NegInf | NegInf, PosInf => NaN
  | PosInf, _ | _, PosInf => PosInf
  | NegInf, _ | _, NegInf => NegInf
  end.

Definition Qsgn_pos (q : Q) : bool := is_lt (0 ?= q)%Q.

(** [a * k] for a finite non-zero constant [k]. *)
Definition fscale (a : pyfloat) (k : Q) : pyfloat :=
  match a with
  | Finite x => Finite (x * k)
  | PosInf => if Qsgn_pos k then PosInf else NegInf
  | NegInf => if Qsgn_pos k then NegInf else PosInf
  | NaN => NaN
  end.

Definition ZeroDivisionError := Exn "ZeroDivisionError" "float division by zero".

(** [a / b]; Python raises on a zero divisor. *)
Definition fdiv (a b : pyfloat) : pyresult pyfloat :=
  match b with
  | Finite y =>
      if Qeq_bool y 0 then Raise ZeroDivisionError
      else Ok (fscale a (/ y))
  | NaN => Ok NaN
  | PosInf | NegInf =>
      match a with
      | Finite _ => Ok (Finite 0)
      | _ => Ok NaN
      end
  end.

(** [int(x)]: truncation toward zero; the infinities and NaN raise. *)
Definition py_int (x : pyfloat) : pyresult Z :=
  match x with
  | Finite q => Ok (Z.quot (Qnum q) (Zpos (Qden q)))
  | PosInf | NegInf =>
      Raise (Exn "OverflowError" "cannot convert float infinity to integer")
  | NaN => Raise (Exn "ValueError" "cannot convert float NaN to integer")
  end.

(** [str(n)] for an [int]. *)
Definition str_of_int (n : Z) : string := NilZero.string_of_int (Z.to_int n).

(** An [int] used where a float is expected. *)
Definition of_int (n : Z) : pyfloat := Finite (inject_Z n).

(** CPython keeps a duration (a sleep length, a socket timeout) as a
    signed 64-bit count of nanoseconds: [s] seconds fit when
    [-2**63 <= s * 10**9 < 2**63]. *)
Definition fits_time (s : Q) : bool :=
  andb (Qle_bool (inject_Z (- 2 ^ 63)) (s * inject_Z (10 ^ 9)))
       (negb (Qle_bool (inject_Z (2 ^ 63)) (s * inject_Z (10 ^ 9)))).

(** A result of float arithmetic is rounded to a float; from
    [2**1024 - 2**970] on, in absolute value, it rounds beyond the largest
    one. *)
Definition float_overflows (q : Q) : bool :=
  Qle_bool (inject_Z (2 ^ 1024 - 2 ^ 970)) (Qabs q).

End Py.
Import Py.

(** ** [network_utils.py]: the pure derivations *)

Module NetworkUtils.

Record retry_config := RetryConfig {
  max_retries : Z;
  backoff_factor : pyfloat;
  timeout : Z;
  chunk_size : Z
}.

(** [NetworkOptimizer.get_retry_config]. *)
Definition get_retry_config (bandwidth_mbps : option pyfloat) : retry_config :=
  let bandwidth_mbps :=
    match bandwidth_mbps with
    | None => Finite 10
    | Some b => b
    end in
  if flt bandwidth_mbps (of_int 5) then
    RetryConfig 5 (Finite 2) 30 (1024 * 512)
  else if flt bandwidth_mbps (of_int 25) then
    RetryConfig 3 (Finite (3 # 2)) 20 (1024 * 1024 * 2)
  else
    RetryConfig 2 (Finite 1) 15 (1024 * 1024 * 5).

(** The arithmetic of [get_optimal_concurrent_connections] once the
    bandwidth is known:
    [max(2, min(16, int(bandwidth_mbps / 10) + 2))]. *)
Definition connections_for (bandwidth_mbps : pyfloat) : pyresult Z :=
  match fdiv bandwidth_mbps (of_int 10) with
  | Raise e => Raise e
  | Ok tenth =>
      match py_int tenth with
      | Raise e => Raise e
      | Ok n => Ok (Z.max 2 (Z.min 16 (n + 2)))
      end
  end.

End NetworkUtils.

(** ** The world outside the process *)

Module Effects.

(** What [subprocess.run(..., capture_output=True)] hands back. *)
Record completed_process := Completed {
  returncode : Z;
  stdout : string;
  stderr : string
}.

(** One step of [response.iter_content]. *)
Inductive chunk_read :=
| Chunk (len : Z)
| ReadError (e : exn).

(** The primitives the program calls, over the state [host] of the
    machine and of the network.  A [Raise] is the primitive raising. *)
Record Platform (host : Type) := {
  platform_system : host -> string;
  time_time : host -> Q * host;
  sleeping : Q -> host -> host;
  subprocess_run : list string -> option Z -> host -> pyresult completed_process * host;
  gethostbyname : string -> option Q -> host -> pyresult string * host;
  import_requests : host -> pyresult unit;
  requests_get : string -> Z -> host -> pyresult (list chunk_read) * host;
  geteuid : host -> Z;
  IsUserAnAdmin : host -> pyresult Z;
  open_write : string -> string -> host -> pyresult unit * host
}.

(** What the process is seen to do. *)
Inductive event :=
| EvRun (cmd : list string)
| EvPrivilegeCheck
| EvPrint (line : string)
| EvWrite (path : string)
| EvInvoke
| EvSleep (seconds : Q).

Record world (host : Type) := World {
  w_host : host;
  default_timeout : option Q;
  trace : list event
}.
Arguments World {host}.
Arguments w_host {host}.
Arguments default_timeout {host}.
Arguments trace {host}.

(** Computations: they may raise, and they change the world. *)
Definition M (host A : Type) : Type := world host -> pyresult A * world host.

Section Monad.
Context {host : Type}.
Local Abbreviation M := (M host).

Definition ret {A} (a : A) : M A := fun w => (Ok a, w).

Definition raise {A} (e : exn) : M A := fun w => (Raise e, w).

Definition bind {A B} (m : M A) (k : A -> M B) : M B :=
  fun w =>
    match m w with
    | (Ok a, w') => k a w'
    | (Raise e, w') => (Raise e, w')
    end.

(** [try: body except Exception as e: handler e]. *)
Definition try_except {A} (body : M A) (handler : exn -> M A) : M A :=
  fun w =>
    match body w with
    | (Ok a, w') => (Ok a, w')
    | (Raise e, w') => handler e w'
    end.

Definition lift {A} (r : pyresult A) : M A := fun w => (r, w).

Definition emit (ev : event) : M unit :=
  fun w => (Ok tt, World (w_host w) (default_timeout w) (trace w ++ [ev])).

(** A primitive that reads and changes the host only. *)
Definition on_host {A} (f : host -> pyresult A * host) : M A :=
  fun w =>
    let (r, h) := f (w_host w) in
    (r, World h (default_timeout w) (trace w)).

End Monad.

Declare Scope py_scope.
Delimit Scope py_scope with py.
Notation "x <- m ;; k" := (bind m (fun x => k))
  (at level 61, m at next level, right associativity) : py_scope.
Notation "m ;;; k" := (bind m (fun _ => k))
  (at level 61, right associativity) : py_scope.

Section Primitives.
Context {host : Type} (P : Platform host).
Local Abbreviation M := (M host).
Local Open Scope py_scope.

Definition now : M Q :=
  on_host (fun h => let (t, h') := time_time host P h in (Ok t, h')).

Definition run (cmd : list string) (timeout : option Z) : M completed_process :=
  emit (EvRun cmd) ;;;
  on_host (subprocess_run host P cmd timeout).

Definition print (line : string) : M unit := emit (EvPrint line).

(** [time.sleep]: a length that does not fit a duration, an infinite one
    included, is an [OverflowError]; a negative or NaN length is a
    [ValueError]. *)
Definition time_sleep (seconds : pyfloat) : M unit :=
  match seconds with
  | Finite s =>
      if negb (fits_time s)
      then raise (Exn "OverflowError" "timestamp too large to convert to C _PyTime_t")
      else if is_lt (s ?= 0)%Q
      then raise (Exn "ValueError" "sleep length must be non-negative")
      else emit (EvSleep s) ;;;
           on_host (fun h => (Ok tt, sleeping host P s h))
  | NaN => raise (Exn "ValueError" "Invalid value NaN (not a number)")
  | PosInf | NegInf =>
      raise (Exn "OverflowError" "timestamp too large to convert to C _PyTime_t")
  end.

Definition getdefaulttimeout : M (option Q) :=
  fun w => (Ok (default_timeout w), w).

(** [socket.setdefaulttimeout]: [None], or a non-negative number that
    fits a duration. *)
Definition setdefaulttimeout (t : option Q) : M unit :=
  fun w =>
    match t with
    | Some s =>
        if negb (fits_time s)
        then (Raise (Exn "OverflowError"
                         "timestamp too large to convert to C _PyTime_t"), w)
        else if is_lt (s ?= 0)%Q
        then (Raise (Exn "ValueError" "Timeout value out of range"), w)
        else (Ok tt, World (w_host w) t (trace w))
    | None => (Ok tt, World (w_host w) None (trace w))
    end.

Definition resolve (domain : string) : M string :=
  fun w =>
    let (r, h) := gethostbyname host P domain (default_timeout w) (w_host w) in
    (r, World h (default_timeout w) (trace w)).

End Primitives.

End Effects.
Import Effects.

(** ** Python strings and lists *)

Module PyStr.

Definition lower_char (c : ascii) : ascii :=
  let n := nat_of_ascii c in
  if andb (Nat.leb 65 n) (Nat.leb n 90) then ascii_of_nat (n + 32) else c.

(** [s.lower()] on ASCII text. *)
Fixpoint lower (s : string) : string :=
  match s with
  | EmptyString => EmptyString
  | String c r => String (lower_char c) (lower r)
  end.

(** The ASCII characters [str.isspace] accepts. *)
Definition is_space (c : ascii) : bool :=
  let n := nat_of_ascii c in
  orb (andb (Nat.leb 9 n) (Nat.leb n 13))
      (andb (Nat.leb 28 n) (Nat.leb n 32)).

Fixpoint lstrip (s : string) : string :=
  match s with
  | String c r => if is_space c then lstrip r else s
  | EmptyString => EmptyString
  end.

(** Drops the white space at the end: [None] stands for a suffix that is
    white space only. *)
Fixpoint rstrip_aux (s : string) : option string :=
  match s with
  | EmptyString => None
  | String c r =>
      match rstrip_aux r with
      | Some r' => Some (String c r')
      | None => if is_space c then None else Some (String c EmptyString)
      end
  end.

Definition rstrip (s : string) : string :=
  match rstrip_aux s with
  | Some r => r
  | None => EmptyString
  end.

(** [s.strip()]. *)
Definition strip (s : string) : string := rstrip (lstrip s).

(** [s.split(sep)] for a one-character separator. *)
Fixpoint split_on (sep : ascii) (s : string) : list string :=
  match s with
  | EmptyString => [EmptyString]
  | String c r =>
      if Ascii.eqb c sep then EmptyString :: split_on sep r
      else
        match split_on sep r with
        | piece :: pieces => String c piece :: pieces
        | [] => [String c EmptyString]
        end
  end.

(** [s.split()]: the words between runs of white space.  [word] is the
    word being read, reversed. *)
Fixpoint split_ws_aux (s : string) (word : list ascii) : list string :=
  let close (rest : list string) :=
    match word with
    | [] => rest
    | _ => string_of_list_ascii (rev word) :: rest
    end in
  match s with
  | EmptyString => close []
  | String c r =>
      if is_space c then close (split_ws_aux r [])
      else split_ws_aux r (c :: word)
  end.

Definition split_ws (s : string) : list string := split_ws_aux s [].

Fixpoint prefix_of (p s : string) : bool :=
  match p, s with
  | EmptyString, _ => true
  | String a p', String b s' => andb (Ascii.eqb a b) (prefix_of p' s')
  | String _ _, EmptyString => false
  end.

(** [sub in s]. *)
Fixpoint contains (sub s : string) : bool :=
  orb (prefix_of sub s)
      (match s with
       | EmptyString => false
       | String _ r => contains sub r
       end).

Definition IndexError := Exn "IndexError" "list index out of range".

(** [l[i]] for [i >= 0]. *)
Definition item {A} (l : list A) (i : nat) : pyresult A :=
  match nth_error l i with
  | Some a => Ok a
  | None => Raise IndexError
  end.

(** [range(n)]. *)
Definition range (n : Z) : list Z := map Z.of_nat (seq 0 (Z.to_nat n)).

(** [min(l, key=key)]: the first element whose key no earlier or later
    element is below. *)
Fixpoint min_from {A} (key : A -> pyfloat) (best : A) (l : list A) : A :=
  match l with
  | [] => best
  | x :: r => min_from key (if flt (key x) (key best) then x else best) r
  end.

Definition min_by {A} (key : A -> pyfloat) (l : list A) : pyresult A :=
  match l with
  | [] => Raise (Exn "ValueError" "min() arg is an empty sequence")
  | x :: r => Ok (min_from key x r)
  end.

(** [x ** n] for an [int] exponent; a zero base with a negative exponent
    is a [ZeroDivisionError], a power too large for a float an
    [OverflowError]. *)
Definition fpow (x : pyfloat) (n : Z) : pyresult pyfloat :=
  if (n =? 0)%Z then Ok (Finite 1)
  else
    match x with
    | Finite q =>
        if andb (n <? 0)%Z (Qeq_bool q 0)
        then Raise (Exn "ZeroDivisionError"
                        "0.0 cannot be raised to a negative power")
        else if float_overflows (q ^ n)
        then Raise (Exn "OverflowError" "(34, 'Numerical result out of range')")
        else Ok (Finite (q ^ n))
    | PosInf => Ok (if (n <? 0)%Z then Finite 0 else PosInf)
    | NegInf => Ok (if (n <? 0)%Z then Finite 0 else if Z.even n then PosInf else NegInf)
    | NaN => Ok NaN
    end.

End PyStr.
Import PyStr.

(** ** [network_utils.py]: probing, retrying *)

Module NetworkOptimizer.
Import NetworkUtils.

Definition DNS_SERVERS : list (string * list string) :=
  [ ("cloudflare", ["1.1.1.1"; "1.0.0.1"]);
    ("google", ["8.8.8.8"; "8.8.4.4"]);
    ("quad9", ["9.9.9.9"; "149.112.112.112"]);
    ("opendns", ["208.67.222.222"; "208.67.220.220"]) ].

(** The fields of the object that its methods read or write;
    [system_info_os] is [self.system_info['os']]. *)
Record NetworkOptimizer := Self {
  best_dns : option string;
  system_info_os : string
}.

(** One value of the [results] dictionary of [benchmark_dns_servers]. *)
Record dns_result := DnsResult {
  servers : list string;
  ping_time : pyfloat;
  avg_lookup_time : pyfloat;
  total_score : pyfloat
}.

(** The dictionary [benchmark_network] returns. *)
Record network_report := NetworkReport {
  report_best_dns : option string;
  bandwidth_mbps : pyfloat;
  optimal_connections : Z
}.

Section Methods.
Context {host : Type} (P : Platform host).
Local Abbreviation M := (M host).
Local Open Scope py_scope.

(** [__init__] with [_detect_system]. *)
Definition init (h : host) : NetworkOptimizer :=
  Self None (lower (platform_system host P h)).

(** [ping_dns_server]. *)
Definition ping_dns_server (self : NetworkOptimizer) (dns_ip : string)
    (timeout : Z) : M pyfloat :=
  try_except
    (let cmd :=
       if String.eqb (system_info_os self) "windows"
       then ["ping"; "-n"; "1"; "-w"; str_of_int (timeout * 1000); dns_ip]
       else ["ping"; "-c"; "1"; "-W"; str_of_int timeout; dns_ip] in
     start_time <- now P ;;
     result <- run P cmd (Some (timeout + 1)) ;;
     end_time <- now P ;;
     if (returncode result =? 0)%Z
     then ret (Finite ((end_time - start_time) * 1000))
     else ret PosInf)
    (fun _ => ret PosInf).

(** [dns_lookup_test].  [socket.getdefaulttimeout()] is the first
    statement of the [try] block and cannot raise; it is read before the
    block so that the handler can name [original_dns]. *)
Definition dns_lookup_test (dns_server test_domain : string) (timeout : Q)
    : M pyfloat :=
  original_dns <- getdefaulttimeout ;;
  try_except
    (setdefaulttimeout (Some timeout) ;;;
     start_time <- now P ;;
     _ <- resolve P test_domain ;;
     end_time <- now P ;;
     setdefaulttimeout original_dns ;;;
     ret (Finite ((end_time - start_time) * 1000)))
    (fun _ =>
       setdefaulttimeout original_dns ;;;
       ret PosInf).

(** The loop over [test_domains]. *)
Fixpoint lookup_loop (server : string) (test_domains : list string)
    (lookup_times : list pyfloat) : M (list pyfloat) :=
  match test_domains with
  | [] => ret lookup_times
  | domain :: rest =>
      lookup_time <- dns_lookup_test server domain 3 ;;
      lookup_loop server rest
        (if fne lookup_time PosInf
         then lookup_times ++ [lookup_time]
         else lookup_times)
  end.

(** [sum(l)]. *)
Definition fsum (l : list pyfloat) : pyfloat := fold_left fadd l (of_int 0).

(** The loop over [DNS_SERVERS.items()], filling [results]. *)
Fixpoint servers_loop (self : NetworkOptimizer)
    (items : list (string * list string)) (test_domains : list string)
    (results : list (string * dns_result)) : M (list (string * dns_result)) :=
  match items with
  | [] => ret results
  | (name, servers) :: rest =>
      primary <- lift (item servers 0) ;;
      ping_time <- ping_dns_server self primary 3 ;;
      lookup_times <- lookup_loop primary test_domains [] ;;
      avg_lookup <-
        match lookup_times with
        | [] => ret PosInf
        | _ => lift (fdiv (fsum lookup_times)
                          (of_int (Z.of_nat (List.length lookup_times))))
        end ;;
      servers_loop self rest test_domains
        (results ++
         [(name, DnsResult servers ping_time avg_lookup (fadd ping_time avg_lookup))])
  end.

(** The end of [benchmark_dns_servers]: the choice among [results]. *)
Definition select_best (self : NetworkOptimizer)
    (results : list (string * dns_result))
    : pyresult (NetworkOptimizer * (option string * option (list string))) :=
  match min_by (fun x => total_score (snd x)) results with
  | Raise e => Raise e
  | Ok best_dns =>
      if fne (total_score (snd best_dns)) PosInf
      then Ok (Self (Some (fst best_dns)) (system_info_os self),
               (Some (fst best_dns), Some (servers (snd best_dns))))
      else Ok (self, (None, None))
  end.

Definition default_test_domains : list string :=
  ["www.youtube.com"; "www.tiktok.com"; "www.google.com"].

(** [benchmark_dns_servers]; the object comes back with [best_dns] set. *)
Definition benchmark_dns_servers (self : NetworkOptimizer)
    (test_domains : option (list string))
    : M (NetworkOptimizer * (option string * option (list string))) :=
  let test_domains :=
    match test_domains with
    | None => default_test_domains
    | Some d => d
    end in
  results <- servers_loop self DNS_SERVERS test_domains [] ;;
  lift (select_best self results).

(** The loop over [response.iter_content(chunk_size=8192)]. *)
Fixpoint download_loop (start_time : Q) (chunks : list chunk_read)
    (data_downloaded : Z) : M Z :=
  match chunks with
  | [] => ret data_downloaded
  | ReadError e :: _ => raise e
  | Chunk len :: rest =>
      let data_downloaded := (data_downloaded + len)%Z in
      t <- now P ;;
      if is_lt (5 ?= t - start_time)%Q
      then ret data_downloaded
      else download_loop start_time rest data_downloaded
  end.

(** The [try] block of [detect_bandwidth]. *)
Definition measure_bandwidth (test_url : string) (timeout : Z) : M pyfloat :=
  on_host (fun h => (import_requests host P h, h)) ;;;
  start_time <- now P ;;
  response <- on_host (requests_get host P test_url timeout) ;;
  data_downloaded <- download_loop start_time response 0 ;;
  end_time <- now P ;;
  let elapsed_time := Finite (end_time - start_time) in
  bandwidth_bps <- lift (fdiv (of_int data_downloaded) elapsed_time) ;;
  lift (fdiv (fscale bandwidth_bps 8) (of_int (1024 * 1024))).

(** [detect_bandwidth]. *)
Definition detect_bandwidth (test_url : string) (timeout : Z) : M pyfloat :=
  try_except (measure_bandwidth test_url timeout)
             (fun _ => ret (Finite 10)).

(** [get_optimal_concurrent_connections]. *)
Definition get_optimal_concurrent_connections (bandwidth_mbps : option pyfloat)
    : M Z :=
  bandwidth_mbps <-
    match bandwidth_mbps with
    | None => detect_bandwidth "http://www.google.com" 10
    | Some b => ret b
    end ;;
  lift (connections_for bandwidth_mbps).

(** The body of the [for attempt in range(max_retries)] loop of
    [smart_retry], over the attempts still to come.  [func] is the call
    of the operation with its arguments: it acts on the host, and each
    call of it is recorded as [EvInvoke]. *)
Fixpoint retry_loop {A} (func : host -> pyresult A * host)
    (max_retries : Z) (backoff_factor : pyfloat) (attempts : list Z)
    : M (option A) :=
  match attempts with
  | [] => ret None
  | attempt :: rest =>
      try_except
        (emit EvInvoke ;;;
         a <- on_host func ;;
         ret (Some a))
        (fun e =>
           if (attempt =? max_retries - 1)%Z then raise e
           else
             wait_time <- lift (fpow backoff_factor attempt) ;;
             time_sleep P wait_time ;;;
             retry_loop func max_retries backoff_factor rest)
  end.

(** [smart_retry]. *)
Definition smart_retry {A} (func : host -> pyresult A * host)
    (max_retries : Z) (backoff_factor : pyfloat) : M (option A) :=
  retry_loop func max_retries backoff_factor (range max_retries).

(** [dns_choice in self.DNS_SERVERS] and [self.DNS_SERVERS[dns_choice]]. *)
Fixpoint dict_get {A} (d : list (string * A)) (key : string) : option A :=
  match d with
  | [] => None
  | (k, v) :: rest => if String.eqb k key then Some v else dict_get rest key
  end.

(** The ['auto'] branch of [get_dns_servers]. *)
Definition get_dns_servers_auto (self : NetworkOptimizer)
    : M (NetworkOptimizer * option (list string)) :=
  r <- benchmark_dns_servers self None ;;
  ret (fst r, snd (snd r)).

(** [get_dns_servers]; an unknown choice calls the method again with
    ['auto'], which is the first branch. *)
Definition get_dns_servers (self : NetworkOptimizer) (dns_choice : string)
    : M (NetworkOptimizer * option (list string)) :=
  if String.eqb dns_choice "auto" then get_dns_servers_auto self
  else
    match dict_get DNS_SERVERS dns_choice with
    | Some addresses => ret (self, Some addresses)
    | None => get_dns_servers_auto self
    end.

(** [benchmark_network]. *)
Definition benchmark_network (self : NetworkOptimizer)
    : M (NetworkOptimizer * network_report) :=
  r <- benchmark_dns_servers self None ;;
  let self := fst r in
  bandwidth <- detect_bandwidth "http://www.google.com" 10 ;;
  connections <- get_optimal_concurrent_connections (Some bandwidth) ;;
  ret (self, NetworkReport (best_dns self) bandwidth connections).

End Methods.
End NetworkOptimizer.

(** ** [system_tuner.py] *)

Module SystemNetworkTuner.

Record SystemNetworkTuner := Self {
  os_type : string;
  requires_root : bool
}.

(** The character [chr(34)] that two of the commands contain. *)
Definition dq : string := String (ascii_of_nat 34) EmptyString.

Definition linux_commands : list string :=
  [ "sysctl -w net.core.rmem_max=134217728";
    "sysctl -w net.core.wmem_max=134217728";
    "sysctl -w net.ipv4.tcp_rmem=" ++ dq ++ "4096 87380 134217728" ++ dq;
    "sysctl -w net.ipv4.tcp_wmem=" ++ dq ++ "4096 65536 134217728" ++ dq;
    "sysctl -w net.core.netdev_max_backlog=5000";
    "sysctl -w net.core.somaxconn=1024";
    "sysctl -w net.ipv4.tcp_window_scaling=1";
    "sysctl -w net.ipv4.tcp_timestamps=1";
    "sysctl -w net.ipv4.tcp_sack=1";
    "sysctl -w net.ipv4.tcp_no_metrics_save=1";
    "sysctl -w net.ipv4.tcp_syn_retries=3";
    "sysctl -w net.ipv4.tcp_synack_retries=3";
    "sysctl -w net.ipv4.tcp_retries2=8" ].

Definition bbr_commands : list string :=
  [ "sysctl -w net.ipv4.tcp_congestion_control=bbr";
    "sysctl -w net.core.default_qdisc=fq" ].

Definition darwin_commands : list string :=
  [ "sysctl -w kern.ipc.maxsockbuf=16777216";
    "sysctl -w net.inet.tcp.sendspace=1048576";
    "sysctl -w net.inet.tcp.recvspace=1048576" ].

Definition windows_commands : list string :=
  [ "netsh int tcp set global autotuninglevel=normal";
    "netsh int tcp set global chimney=enabled";
    "netsh int tcp set global rss=enabled";
    "netsh int tcp set global netdma=enabled";
    "netsh int tcp set global initialrto=1000";
    "netsh int tcp set global maxsynretransmissions=4" ].

(** The query [is_bbr_available] runs. *)
Definition bbr_query : list string :=
  ["sysctl"; "net.ipv4.tcp_available_congestion_control"].

Definition config_file : string := "/etc/sysctl.d/99-network-optimization.conf".

Definition config_content : string :=
"# Network optimization for video upload/download
# Generated by TikTok uploader

# TCP buffer sizes
net.core.rmem_max = 134217728
net.core.wmem_max = 134217728
net.ipv4.tcp_rmem = 4096 87380 134217728
net.ipv4.tcp_wmem = 4096 65536 134217728

# Connection optimizations
net.core.netdev_max_backlog = 5000
net.core.somaxconn = 1024

# TCP optimizations
net.ipv4.tcp_window_scaling = 1
net.ipv4.tcp_timestamps = 1
net.ipv4.tcp_sack = 1
net.ipv4.tcp_no_metrics_save = 1

# Faster recovery
net.ipv4.tcp_syn_retries = 3
net.ipv4.tcp_synack_retries = 3
net.ipv4.tcp_retries2 = 8

# BBR congestion control (if available)
net.ipv4.tcp_congestion_control = bbr
net.core.default_qdisc = fq
".

(** A value of the [settings] dictionary of [benchmark_current_settings]. *)
Inductive setting :=
| SNone
| SStr (s : string)
| SBool (b : bool).

Section Methods.
Context {host : Type} (P : Platform host).
Local Abbreviation M := (M host).
Local Open Scope py_scope.

(** [__init__]. *)
Definition init (h : host) : SystemNetworkTuner :=
  Self (lower (platform_system host P h)) true.

(** [check_root_privileges]; the result is the truth value of what the
    method returns. *)
Definition check_root_privileges (self : SystemNetworkTuner) : M bool :=
  emit EvPrivilegeCheck ;;;
  if String.eqb (os_type self) "windows"
  then try_except
         (n <- on_host (fun h => (IsUserAnAdmin host P h, h)) ;;
          ret (negb (n =? 0)%Z))
         (fun _ => ret false)
  else fun w => (Ok (geteuid host P (w_host w) =? 0)%Z, w).

(** [is_bbr_available]. *)
Definition is_bbr_available (self : SystemNetworkTuner) : M bool :=
  try_except
    (if String.eqb (os_type self) "linux"
     then
       result <- run P bbr_query None ;;
       if (returncode result =? 0)%Z
       then
         field <- lift (item (split_on "=" (strip (stdout result))) 1) ;;
         ret (contains "bbr" (strip field))
       else ret false
     else ret false)
    (fun _ => ret false).

(** [get_network_optimization_commands]. *)
Definition get_network_optimization_commands (self : SystemNetworkTuner)
    : M (list string) :=
  if String.eqb (os_type self) "linux"
  then
    bbr <- is_bbr_available self ;;
    ret (linux_commands ++ (if bbr then bbr_commands else []))%list
  else if String.eqb (os_type self) "darwin" then ret darwin_commands
  else if String.eqb (os_type self) "windows" then ret windows_commands
  else ret [].

(** The dry-run listing. *)
Fixpoint print_commands (commands : list string) : M unit :=
  match commands with
  | [] => ret tt
  | cmd :: rest => print ("  " ++ cmd) ;;; print_commands rest
  end.

(** The loop that executes the commands and counts the successes. *)
Fixpoint execute_commands (commands : list string) (success_count : Z) : M Z :=
  match commands with
  | [] => ret success_count
  | cmd :: rest =>
      success_count <-
        try_except
          (result <- run P (split_ws cmd) (Some 30) ;;
           ret (if (returncode result =? 0)%Z
                then (success_count + 1)%Z
                else success_count))
          (fun _ => ret success_count) ;;
      execute_commands rest success_count
  end.

(** [apply_optimizations]. *)
Definition apply_optimizations (self : SystemNetworkTuner) (dry_run : bool)
    : M bool :=
  denied <-
    (if negb dry_run
     then privileged <- check_root_privileges self ;; ret (negb privileged)
     else ret false) ;;
  if denied then ret false
  else
    commands <- get_network_optimization_commands self ;;
    if dry_run
    then print_commands commands ;;; ret true
    else
      success_count <- execute_commands commands 0 ;;
      ret (0 <? success_count)%Z.

(** [create_persistent_config]. *)
Definition create_persistent_config (self : SystemNetworkTuner) : M bool :=
  if String.eqb (os_type self) "linux"
  then try_except
         (emit (EvWrite config_file) ;;;
          on_host (open_write host P config_file config_content) ;;;
          ret true)
         (fun _ => ret false)
  else ret false.

(** The query [detect_tcp_congestion_algorithm] runs. *)
Definition congestion_query : list string :=
  ["sysctl"; "net.ipv4.tcp_congestion_control"].

(** [detect_tcp_congestion_algorithm]. *)
Definition detect_tcp_congestion_algorithm (self : SystemNetworkTuner)
    : M (option string) :=
  try_except
    (if String.eqb (os_type self) "linux"
     then
       result <- run P congestion_query None ;;
       if (returncode result =? 0)%Z
       then
         field <- lift (item (split_on "=" (strip (stdout result))) 1) ;;
         ret (Some (strip field))
       else ret None
     else ret None)
    (fun _ => ret None).

(** One of the two buffer sizes of [benchmark_current_settings]: the
    query, and the entry it adds to [settings] when it succeeds. *)
Definition read_buffer_size (name key : string)
    (settings : list (string * setting)) : M (list (string * setting)) :=
  result <- run P ["sysctl"; name] None ;;
  if (returncode result =? 0)%Z
  then
    field <- lift (item (split_on "=" (strip (stdout result))) 1) ;;
    ret (settings ++ [(key, SStr (strip field))])%list
  else ret settings.

(** [benchmark_current_settings].  The two buffer sizes are read in one
    [try] block whose handler is [pass]: an exception keeps the entries
    made so far and skips the rest of the block. *)
Definition benchmark_current_settings (self : SystemNetworkTuner)
    : M (list (string * setting)) :=
  current_tcp <- detect_tcp_congestion_algorithm self ;;
  bbr_available <- is_bbr_available self ;;
  root_access <- check_root_privileges self ;;
  let settings :=
    [ ("tcp_congestion_control",
       match current_tcp with Some s => SStr s | None => SNone end);
      ("bbr_available", SBool bbr_available);
      ("os_type", SStr (os_type self));
      ("root_access", SBool root_access) ] in
  if String.eqb (os_type self) "linux"
  then
    try_except
      (settings <- read_buffer_size "net.core.rmem_max" "rmem_max" settings ;;
       try_except
         (read_buffer_size "net.core.wmem_max" "wmem_max" settings)
         (fun _ => ret settings))
      (fun _ => ret settings)
  else ret settings.

End Methods.
End SystemNetworkTuner.

(** ** [cli.py]: the [upload] sub-command up to system tuning *)

Module Cli.

(** The parsed arguments that this part of [main] reads. *)
Record args := Args {
  video : option string;
  youtube : option string;
  tune_system : bool;
  tune_dry_run : bool
}.

(** How this part of [main] ends: [sys.exit(code)], or on to the rest of
    the upload, which is not modelled. *)
Inductive ending :=
| Exit (code : Z)
| Upload.

(** The truth value of an optional string. *)
Definition truthy (s : option string) : bool :=
  match s with
  | None | Some EmptyString => false
  | Some _ => true
  end.

Definition is_none {A} (o : option A) : bool :=
  match o with None => true | Some _ => false end.

(** The network flags of [upload]: [--benchmark], [--dns], [--fast-net]. *)
Record net_args := NetArgs {
  benchmark : bool;
  dns : string;
  fast_net : bool
}.

(** Where the modelled part of [upload] ends: [sys.exit(code)], or the
    transfer with the network optimizer it was given. *)
Inductive stage :=
| Ended (code : Z)
| Transfer (network_optimizer : option NetworkOptimizer.NetworkOptimizer).

Section Main.
Context {host : Type} (P : Platform host).
Local Abbreviation M := (M host).
Local Open Scope py_scope.

(** The system tuning block. *)
Definition tune (a : args) : M ending :=
  system_tuner <- (fun w => (Ok (SystemNetworkTuner.init P (w_host w)), w)) ;;
  let dry_run := tune_dry_run a in
  _ <- SystemNetworkTuner.apply_optimizations P system_tuner dry_run ;;
  (if negb dry_run
   then _ <- SystemNetworkTuner.create_persistent_config P system_tuner ;; ret tt
   else ret tt) ;;;
  ret (Exit 0).

(** The [upload] branch from the source checks to system tuning. *)
Definition upload (a : args) : M ending :=
  if andb (is_none (video a)) (is_none (youtube a)) then ret (Exit 1)
  else if andb (truthy (video a)) (truthy (youtube a)) then ret (Exit 1)
  else if orb (tune_system a) (tune_dry_run a) then tune a
  else ret Upload.

(** What comes after the tuning block: the benchmark block, which ends
    the process, and the creation of the network optimizer for the
    transfer. *)
Definition network_stage (n : net_args) : M stage :=
  if benchmark n
  then
    network_optimizer <- (fun w => (Ok (NetworkOptimizer.init P (w_host w)), w)) ;;
    _ <- NetworkOptimizer.benchmark_network P network_optimizer ;;
    system_tuner <- (fun w => (Ok (SystemNetworkTuner.init P (w_host w)), w)) ;;
    _ <- SystemNetworkTuner.benchmark_current_settings P system_tuner ;;
    ret (Ended 0)
  else if orb (negb (String.eqb (dns n) "auto")) (fast_net n)
  then
    network_optimizer <- (fun w => (Ok (NetworkOptimizer.init P (w_host w)), w)) ;;
    if fast_net n
    then
      r <- NetworkOptimizer.benchmark_network P network_optimizer ;;
      ret (Transfer (Some (fst r)))
    else ret (Transfer (Some network_optimizer))
  else ret (Transfer None).

(** The [upload] branch from the source checks to the network optimizer. *)
Definition upload_network (a : args) (n : net_args) : M stage :=
  e <- upload a ;;
  match e with
  | Exit code => ret (Ended code)
  | Upload => network_stage n
  end.

End Main.
End Cli.

(** ** Notions of the specification *)

Module Spec.

(** [clamp(x, lo, hi)]. *)
Definition clamp (x lo hi : Z) : Z :=
  if (x <? lo)%Z then lo else if (hi <? x)%Z then hi else x.

(** The three transfer profiles of the tier table. *)
Definition slow_profile : NetworkUtils.retry_config :=
  NetworkUtils.RetryConfig 5 (Finite 2) 30 524288.

Definition medium_profile : NetworkUtils.retry_config :=
  NetworkUtils.RetryConfig 3 (Finite (3 # 2)) 20 2097152.

Definition fast_profile : NetworkUtils.retry_config :=
  NetworkUtils.RetryConfig 2 (Finite 1) 15 5242880.

(** The lengths [time.sleep] and [socket.setdefaulttimeout] accept: not
    negative, and below [2**63] nanoseconds. *)
Definition is_duration (s : Q) : Prop :=
  (0 <= s)%Q /\ (s * inject_Z (10 ^ 9) < inject_Z (2 ^ 63))%Q.

(** The values [socket.setdefaulttimeout] accepts, hence the only ones
    the process-wide default can hold. *)
Definition valid_timeout (t : option Q) : Prop :=
  match t with
  | Some s => is_duration s
  | None => True
  end.

(** Every wait that [max_retries] attempts may need, one after each
    attempt but the last, is a length [time.sleep] accepts. *)
Definition can_wait (backoff_factor : Q) (max_retries : Z) : Prop :=
  forall attempt : Z,
    (0 <= attempt < max_retries - 1)%Z -> is_duration (backoff_factor ^ attempt).

(** A latency as the probes report it: a finite number of milliseconds,
    or [float('inf')]. *)
Definition measured (x : pyfloat) : Prop :=
  match x with
  | Finite _ | PosInf => True
  | NegInf | NaN => False
  end.

(** A latency that is a number of milliseconds. *)
Definition finite (x : pyfloat) : Prop :=
  match x with
  | Finite _ => True
  | _ => False
  end.

(** The order of two measured latencies. *)
Definition score_le (a b : pyfloat) : Prop :=
  match a, b with
  | Finite x, Finite y => (x <= y)%Q
  | Finite _, PosInf => True
  | PosInf, PosInf => True
  | _, _ => False
  end.

(** What holds of every entry of [results]: its score is the sum of its two
    latencies, both measured, and it carries the addresses of its name. *)
Definition entry_ok (catalogue : list (string * list string))
    (e : string * NetworkOptimizer.dns_result) : Prop :=
  In (fst e, NetworkOptimizer.servers (snd e)) catalogue /\
  measured (NetworkOptimizer.total_score (snd e)) /\
  NetworkOptimizer.total_score (snd e) = fadd (NetworkOptimizer.ping_time (snd e))
         (NetworkOptimizer.avg_lookup_time (snd e)).

(** What [n] failed attempts in a row, numbered from [k] on and each
    followed by its wait, leave in the trace. *)
Definition retry_trace (backoff_factor : Q) (k n : nat) : list event :=
  flat_map (fun i => [EvInvoke; EvSleep (backoff_factor ^ Z.of_nat i)]) (seq k n).


(** The number of calls of the command-execution facility in a trace. *)
Definition executions (t : list event) : nat :=
  List.length (filter (fun ev => match ev with EvRun _ => true | _ => false end) t).

(** The lines of the dry-run listing. *)
Definition listing (commands : list string) : list event :=
  map (fun cmd => EvPrint ("  " ++ cmd)) commands.

(** The query by which [is_bbr_available] learns, on Linux only, whether
    the BBR commands belong to the command set. *)
Definition bbr_probe (self : SystemNetworkTuner.SystemNetworkTuner) : list event :=
  if String.eqb (SystemNetworkTuner.os_type self) "linux"
  then [EvRun SystemNetworkTuner.bbr_query]
  else [].

(** The [ping] command line for one address, as [ping_dns_server] builds
    it for the operating system of the optimizer. *)
Definition ping_command (self : NetworkOptimizer.NetworkOptimizer)
    (dns_ip : string) (timeout : Z) : list string :=
  if String.eqb (NetworkOptimizer.system_info_os self) "windows"
  then ["ping"; "-n"; "1"; "-w"; str_of_int (timeout * 1000); dns_ip]
  else ["ping"; "-c"; "1"; "-W"; str_of_int timeout; dns_ip].

(** The [ping] that the benchmark makes for one candidate. *)
Definition ping_of (self : NetworkOptimizer.NetworkOptimizer)
    (candidate : string * list string) : event :=
  EvRun (ping_command self (hd EmptyString (snd candidate)) 3).

(** The first address of each candidate of the catalogue. *)
Definition primary_addresses : list string :=
  ["1.1.1.1"; "8.8.8.8"; "9.9.9.9"; "208.67.222.222"].

(** The character [c] does not occur in [s]. *)
Fixpoint lacks (c : ascii) (s : string) : Prop :=
  match s with
  | EmptyString => True
  | String a r => a <> c /\ lacks c r
  end.

(** The operating systems that have a command set. *)
Definition tunable (os : string) : bool :=
  orb (String.eqb os "linux")
      (orb (String.eqb os "darwin") (String.eqb os "windows")).

(** The processes started for a list of tuning commands. *)
Definition executed (commands : list string) : list event :=
  map (fun cmd => EvRun (split_ws cmd)) commands.

(** The seconds slept in a trace. *)
Fixpoint slept (t : list event) : Q :=
  match t with
  | [] => 0
  | EvSleep s :: rest => s + slept rest
  | _ :: rest => slept rest
  end.

(** The number of calls of the operation in a trace. *)
Definition invocations (t : list event) : nat :=
  List.length (filter (fun ev => match ev with EvInvoke => true | _ => false end) t).

End Spec.

(** ** A concrete machine, for closed instances of the theorems *)

Module Bench.

Record machine := Machine {
  m_system : string;
  m_euid : Z;
  m_clock : Q;
  m_calls : nat
}.

Definition tick (h : machine) : machine :=
  Machine (m_system h) (m_euid h) (m_clock h + 1) (m_calls h).

Definition called (h : machine) : machine :=
  Machine (m_system h) (m_euid h) (m_clock h) (S (m_calls h)).

Definition bbr_report : string :=
  "net.ipv4.tcp_available_congestion_control = reno cubic bbr".

(** Every command succeeds, the resolver answers, the HTTP connection is
    refused, [/etc] is read-only. *)
Definition platform : Platform machine := {|
  platform_system := m_system;
  time_time := fun h => (m_clock h, tick h);
  sleeping := fun s h => Machine (m_system h) (m_euid h) (m_clock h + s) (m_calls h);
  subprocess_run := fun _ _ h => (Ok (Completed 0 bbr_report EmptyString), called h);
  gethostbyname := fun _ _ h => (Ok "142.250.74.36", h);
  import_requests := fun _ => Ok tt;
  requests_get := fun _ _ h =>
    (Raise (Exn "ConnectionError" "connection refused"), h);
  geteuid := m_euid;
  IsUserAnAdmin := fun _ => Ok 0;
  open_write := fun _ _ h => (Raise (Exn "PermissionError" "permission denied"), h)
|}.

(** The same machine on a network where the HTTP connection opens and the
    stream breaks after its first chunk. *)
Definition streaming : Platform machine := {|
  platform_system := m_system;
  time_time := time_time machine platform;
  sleeping := sleeping machine platform;
  subprocess_run := subprocess_run machine platform;
  gethostbyname := gethostbyname machine platform;
  import_requests := fun _ => Ok tt;
  requests_get := fun _ _ h =>
    (Ok [Chunk 8192; ReadError (Exn "ChunkedEncodingError" "connection broken")], h);
  geteuid := m_euid;
  IsUserAnAdmin := fun _ => Ok 0;
  open_write := open_write machine platform
|}.

(** The same machine cut off from everything: no command can be started,
    no name is resolved. *)
Definition offline : Platform machine := {|
  platform_system := m_system;
  time_time := time_time machine platform;
  sleeping := sleeping machine platform;
  subprocess_run := fun _ _ h =>
    (Raise (Exn "FileNotFoundError" "No such file or directory"), called h);
  gethostbyname := fun _ _ h =>
    (Raise (Exn "gaierror" "Temporary failure in name resolution"), h);
  import_requests := fun _ => Ok tt;
  requests_get := requests_get machine platform;
  geteuid := m_euid;
  IsUserAnAdmin := fun _ => Ok 0;
  open_write := open_write machine platform
|}.

(** The same machine where every command ends with exit code 1. *)
Definition refusing : Platform machine := {|
  platform_system := m_system;
  time_time := time_time machine platform;
  sleeping := sleeping machine platform;
  subprocess_run := fun _ _ h =>
    (Ok (Completed 1 EmptyString "permission denied"), called h);
  gethostbyname := gethostbyname machine platform;
  import_requests := fun _ => Ok tt;
  requests_get := requests_get machine platform;
  geteuid := m_euid;
  IsUserAnAdmin := fun _ => Ok 0;
  open_write := open_write machine platform
|}.

(** The same machine on a network where the HTTP response has an empty
    body. *)
Definition silent : Platform machine := {|
  platform_system := m_system;
  time_time := time_time machine platform;
  sleeping := sleeping machine platform;
  subprocess_run := subprocess_run machine platform;
  gethostbyname := gethostbyname machine platform;
  import_requests := fun _ => Ok tt;
  requests_get := fun _ _ h => (Ok [], h);
  geteuid := m_euid;
  IsUserAnAdmin := fun _ => Ok 0;
  open_write := open_write machine platform
|}.

(** A machine whose clock moves six seconds between two readings, on a
    network whose stream breaks after its first chunk. *)
Definition sluggish : Platform machine := {|
  platform_system := m_system;
  time_time := fun h =>
    (m_clock h, Machine (m_system h) (m_euid h) (m_clock h + 6) (m_calls h));
  sleeping := sleeping machine platform;
  subprocess_run := subprocess_run machine platform;
  gethostbyname := gethostbyname machine platform;
  import_requests := fun _ => Ok tt;
  requests_get := requests_get machine streaming;
  geteuid := m_euid;
  IsUserAnAdmin := fun _ => Ok 0;
  open_write := open_write machine platform
|}.

Definition linux_user : world machine :=
  World (Machine "Linux" 1000 0 0) None [].

Definition linux_root : world machine :=
  World (Machine "Linux" 0 0 0) None [].

Definition mac_user : world machine :=
  World (Machine "Darwin" 501 0 0) (Some 7%Q) [].

Definition bsd_user : world machine :=
  World (Machine "FreeBSD" 1001 0 0) None [].

Definition bsd_root : world machine :=
  World (Machine "FreeBSD" 0 0 0) None [].

Definition boom : exn := Exn "ConnectionError" "connection reset".

(** An operation that fails on its first two calls and then returns 42. *)
Definition flaky (h : machine) : pyresult Z * machine :=
  (if Nat.ltb (m_calls h) 2 then Raise boom else Ok 42%Z, called h).


End Bench.

(** * Properties *)

Local Open Scope list_scope.

(** ** Transfer profiles *)

Section TransferProfiler.
Import NetworkUtils Spec.

Lemma flt_finite (x y : Q) : flt (Finite x) (Finite y) = true <-> (x < y)%Q.
Proof.
  unfold flt, is_lt. rewrite Qlt_alt.
  destruct (x ?= y)%Q; split; congruence.
Qed.

Lemma flt_finite_false (x y : Q) : flt (Finite x) (Finite y) = false <-> (y <= x)%Q.
Proof.
  rewrite <- Bool.not_true_iff_false, flt_finite. split.
  - apply Qnot_lt_le.
  - intros H L. exact (Qlt_not_le _ _ L H).
Qed.

(** C1. [get_retry_config] is the tier table with boundaries at 5 and 25:
    below 5 the slow profile (5, 2.0, 30, 512 KiB), from 5 inclusive to 25
    exclusive the medium profile (3, 1.5, 20, 2 MiB), from 25 on the fast
    profile (2, 1.0, 15, 5 MiB); the boundary values 5 and 25 belong to the
    higher tier, and an infinite bandwidth falls in the outer tier of its
    sign. *)
Theorem get_retry_config_tiers :
  (forall b : Q,
     ((b < 5)%Q -> get_retry_config (Some (Finite b)) = slow_profile) /\
     ((5 <= b)%Q -> (b < 25)%Q ->
        get_retry_config (Some (Finite b)) = medium_profile) /\
     ((25 <= b)%Q -> get_retry_config (Some (Finite b)) = fast_profile)) /\
  get_retry_config (Some (Finite 5)) = medium_profile /\
  get_retry_config (Some (Finite 25)) = fast_profile /\
  get_retry_config (Some NegInf) = slow_profile /\
  get_retry_config (Some PosInf) = fast_profile.
Proof.
  split; [| repeat split; reflexivity].
  intros b. unfold get_retry_config.
  change (of_int 5) with (Finite 5); change (of_int 25) with (Finite 25).
  repeat split.
  - intros H. apply flt_finite in H. rewrite H. reflexivity.
  - intros H5 H25.
    apply flt_finite_false in H5. apply flt_finite in H25.
    rewrite H5, H25. reflexivity.
  - intros H25.
    assert (H5 : (5 <= b)%Q) by (eapply Qle_trans; [| exact H25]; discriminate).
    apply flt_finite_false in H5, H25.
    rewrite H5, H25. reflexivity.
Qed.

(** The tier table at 3.2, 10 and 52 Mbps. *)
Lemma get_retry_config_tiers_witness :
  get_retry_config (Some (Finite (16 # 5))) = slow_profile /\
  get_retry_config (Some (Finite 10)) = medium_profile /\
  get_retry_config (Some (Finite 52)) = fast_profile.
Proof.
  pose proof get_retry_config_tiers as [T _].
  split; [| split].
  - apply (proj1 (T (16 # 5))). reflexivity.
  - apply (proj1 (proj2 (T 10%Q))); [discriminate | reflexivity].
  - apply (proj2 (proj2 (T 52%Q))). discriminate.
Defined.

End TransferProfiler.

(** ** Concurrency *)

Section Concurrency.
Context {host : Type} (P : Platform host).
Import NetworkUtils NetworkOptimizer Spec.

Lemma clamp_max_min (x : Z) : Z.max 2 (Z.min 16 x) = clamp x 2 16.
Proof.
  unfold clamp.
  destruct (Z.ltb_spec x 2), (Z.ltb_spec 16 x); lia.
Qed.

Lemma clamp_bounds (x : Z) : (2 <= clamp x 2 16 <= 16)%Z.
Proof.
  unfold clamp.
  destruct (Z.ltb_spec x 2), (Z.ltb_spec 16 x); lia.
Qed.

(** On a non-negative float, [int] is the floor. *)
Lemma py_int_floor (q : Q) : (0 <= q)%Q -> py_int (Finite q) = Ok (Qfloor q).
Proof.
  intros H. destruct q as [n d]. unfold py_int, Qfloor; cbn [Qnum Qden].
  f_equal. apply Z.quot_div_nonneg; [| lia].
  unfold Qle in H; cbn in H. lia.
Qed.

Lemma connections_for_finite (q : Q) :
  (0 <= q)%Q ->
  connections_for (Finite q) = Ok (clamp (Qfloor (q / 10) + 2) 2 16).
Proof.
  intros H. unfold connections_for, fdiv, of_int.
  change (Qeq_bool (inject_Z 10) 0) with false; cbn [inject_Z fscale].
  change (Finite (q * / (10 # 1))) with (Finite (q / 10)).
  rewrite py_int_floor.
  - now rewrite clamp_max_min.
  - apply Qle_shift_div_l; [reflexivity |]. now rewrite Qmult_0_l.
Qed.

(** C2. For a finite bandwidth [b >= 0] supplied by the caller,
    [get_optimal_concurrent_connections] returns
    [clamp(floor(b / 10) + 2, 2, 16)], leaves the world as it found it, and
    the result lies between 2 and 16. *)
Theorem concurrency_is_clamped (b : Q) (w : world host) :
  (0 <= b)%Q ->
  get_optimal_concurrent_connections P (Some (Finite b)) w
    = (Ok (clamp (Qfloor (b / 10) + 2) 2 16), w) /\
  (2 <= clamp (Qfloor (b / 10) + 2) 2 16 <= 16)%Z.
Proof.
  intros H. split; [| apply clamp_bounds].
  unfold get_optimal_concurrent_connections, bind, ret, lift.
  now rewrite connections_for_finite.
Qed.

End Concurrency.

(** At 52 Mbps: seven connections. *)
Lemma concurrency_is_clamped_witness :
  NetworkOptimizer.get_optimal_concurrent_connections Bench.platform
    (Some (Finite 52)) Bench.linux_user = (Ok 7%Z, Bench.linux_user).
Proof.
  apply (concurrency_is_clamped Bench.platform 52 Bench.linux_user).
  discriminate.
Defined.

(** ** DNS probing *)

Section Probing.
Context {host : Type} (P : Platform host).
Import NetworkOptimizer Spec.

Lemma is_lt_nonneg (s : Q) : (0 <= s)%Q -> is_lt (s ?= 0)%Q = false.
Proof.
  intros H. unfold is_lt.
  destruct (s ?= 0)%Q eqn:E; try reflexivity.
  apply Qlt_alt in E. exfalso. exact (Qlt_not_le _ _ E H).
Qed.

Lemma is_lt_neg (s : Q) : (s < 0)%Q -> is_lt (s ?= 0)%Q = true.
Proof.
  intros H. pose proof (proj1 (Qlt_alt s 0) H) as C.
  destruct (s ?= 0)%Q; (reflexivity || discriminate C).
Qed.

Lemma fits_time_duration (s : Q) : is_duration s -> fits_time s = true.
Proof.
  intros [N U]. unfold fits_time. apply andb_true_intro. split.
  - apply Qle_bool_iff.
    apply Qle_trans with 0%Q; [discriminate |].
    apply Qmult_le_0_compat; [exact N | discriminate].
  - apply Bool.negb_true_iff. apply Bool.not_true_iff_false. intros C.
    apply Qle_bool_iff in C. exact (Qlt_not_le _ _ U C).
Qed.

Lemma setdefaulttimeout_valid (t : option Q) (w : world host) :
  valid_timeout t ->
  setdefaulttimeout t w = (Ok tt, World (w_host w) t (trace w)).
Proof.
  destruct t as [s |]; cbn [valid_timeout setdefaulttimeout]; [| reflexivity].
  intros H. rewrite (fits_time_duration s H). cbn [negb].
  now rewrite (is_lt_nonneg s (proj1 H)).
Qed.

Lemma setdefaulttimeout_raises (t : option Q) (w w' : world host) (e : exn) :
  setdefaulttimeout t w = (Raise e, w') -> w' = w.
Proof.
  unfold setdefaulttimeout.
  destruct t as [s |];
    [destruct (negb (fits_time s)); [| destruct (is_lt (s ?= 0)%Q)] |];
    congruence.
Qed.

Lemma setdefaulttimeout_sets (t : option Q) (w w' : world host) :
  setdefaulttimeout t w = (Ok tt, w') ->
  w' = World (w_host w) t (trace w).
Proof.
  unfold setdefaulttimeout.
  destruct t as [s |];
    [destruct (negb (fits_time s)); [| destruct (is_lt (s ?= 0)%Q)] |];
    congruence.
Qed.

Lemma now_timeout (w : world host) :
  exists t w', now P w = (Ok t, w') /\ default_timeout w' = default_timeout w.
Proof.
  unfold now, on_host. destruct (time_time host P (w_host w)) as [t h].
  now eexists _, _.
Qed.

Lemma resolve_timeout (domain : string) (w : world host) :
  exists r w', resolve P domain w = (r, w') /\
               default_timeout w' = default_timeout w.
Proof.
  unfold resolve.
  destruct (gethostbyname host P domain (default_timeout w) (w_host w)) as [r h].
  now eexists _, _.
Qed.

Lemma dns_lookup_test_spec (dns_server test_domain : string) (timeout : Q)
    (w : world host) :
  valid_timeout (default_timeout w) ->
  exists v w',
    dns_lookup_test P dns_server test_domain timeout w = (Ok v, w') /\
    default_timeout w' = default_timeout w /\
    measured v.
Proof.
  intros V. unfold dns_lookup_test, getdefaulttimeout, bind at 1.
  unfold try_except.
  unfold bind at 1.
  destruct (setdefaulttimeout (Some timeout) w) as [[[] | e] w1] eqn:S1.
  - (* the override is installed *)
    assert (D1 : w1 = World (w_host w) (Some timeout) (trace w))
      by exact (setdefaulttimeout_sets _ _ _ S1).
    unfold bind at 1.
    destruct (now_timeout w1) as (t0 & w2 & -> & D2).
    unfold bind at 1.
    destruct (resolve_timeout test_domain w2) as (r & w3 & -> & D3).
    destruct r as [ip | e].
    + unfold bind at 1.
      destruct (now_timeout w3) as (t1 & w4 & -> & D4).
      unfold bind, ret.
      rewrite setdefaulttimeout_valid by exact V. cbn.
      now eexists _, _.
    + unfold bind, ret.
      rewrite setdefaulttimeout_valid by exact V. cbn.
      now eexists _, _.
  - (* the override is refused *)
    apply setdefaulttimeout_raises in S1. subst w1.
    unfold bind, ret.
    rewrite setdefaulttimeout_valid by exact V. cbn.
    now eexists _, _.
Qed.

Lemma run_timeout (cmd : list string) (t : option Z) (w : world host) :
  exists r w', run P cmd t w = (r, w') /\
               default_timeout w' = default_timeout w.
Proof.
  unfold run, bind, emit, on_host; cbn.
  destruct (subprocess_run host P cmd t (w_host w)) as [r h].
  now eexists _, _.
Qed.

Lemma ping_dns_server_spec (self : NetworkOptimizer) (dns_ip : string)
    (timeout : Z) (w : world host) :
  exists v w',
    ping_dns_server P self dns_ip timeout w = (Ok v, w') /\
    default_timeout w' = default_timeout w /\
    measured v.
Proof.
  unfold ping_dns_server, try_except.
  set (cmd := if String.eqb _ _ then _ else _).
  unfold bind at 1.
  destruct (now_timeout w) as (t0 & w1 & -> & D1).
  unfold bind at 1.
  destruct (run_timeout cmd (Some (timeout + 1)%Z) w1) as (r & w2 & -> & D2).
  destruct r as [result | e].
  - unfold bind.
    destruct (now_timeout w2) as (t1 & w3 & -> & D3).
    destruct (returncode result =? 0)%Z; unfold ret;
      eexists _, _; repeat split; try exact I; congruence.
  - unfold ret. eexists _, _; repeat split; try exact I; congruence.
Qed.

Lemma lookup_loop_spec (server : string) (test_domains : list string) :
  forall (lookup_times : list pyfloat) (w : world host),
    valid_timeout (default_timeout w) ->
    Forall finite lookup_times ->
    exists l w',
      lookup_loop P server test_domains lookup_times w = (Ok l, w') /\
      default_timeout w' = default_timeout w /\
      Forall finite l.
Proof.
  induction test_domains as [| domain rest IH]; intros lookup_times w V F.
  - now exists lookup_times, w.
  - cbn [lookup_loop]. unfold bind at 1.
    destruct (dns_lookup_test_spec server domain 3 w V) as (v & w1 & -> & D1 & Mv).
    rewrite <- D1 in V.
    destruct (IH (if fne v PosInf then (lookup_times ++ [v])%list else lookup_times) w1 V)
      as (l & w2 & E & D2 & Fl).
    + destruct v; try contradiction; cbn; [| exact F].
      apply Forall_app. split; [exact F | now constructor].
    + exists l, w2. repeat split; [exact E | congruence | exact Fl].
Qed.

Lemma fsum_finite (l : list pyfloat) :
  forall acc, finite acc -> Forall finite l -> finite (fold_left fadd l acc).
Proof.
  induction l as [| x l IH]; intros acc A F; [exact A |].
  inversion F as [| ? ? Fx Fl]; subst. cbn [fold_left].
  apply IH; [| exact Fl].
  destruct acc, x; try contradiction. exact I.
Qed.

Lemma average_finite (l : list pyfloat) :
  l <> [] -> Forall finite l ->
  exists q, fdiv (fsum l) (of_int (Z.of_nat (List.length l))) = Ok (Finite q).
Proof.
  intros N F.
  assert (S : finite (fsum l)) by (apply fsum_finite; [exact I | exact F]).
  destruct (fsum l) as [s | | |]; try contradiction.
  unfold fdiv, of_int.
  destruct (Qeq_bool (inject_Z (Z.of_nat (List.length l))) 0) eqn:E.
  - apply Qeq_bool_iff in E. unfold Qeq in E; cbn in E.
    destruct l; [congruence | cbn in E; lia].
  - now eexists.
Qed.

Lemma fadd_measured (a b : pyfloat) : measured a -> measured b -> measured (fadd a b).
Proof. destruct a, b; cbn; tauto. Qed.

Lemma servers_loop_spec (self : NetworkOptimizer)
    (catalogue : list (string * list string)) (test_domains : list string)
    (items : list (string * list string)) :
  forall (results : list (string * dns_result)) (w : world host),
    valid_timeout (default_timeout w) ->
    incl items catalogue ->
    Forall (fun it => snd it <> []) items ->
    Forall (entry_ok catalogue) results ->
    exists results' w',
      servers_loop P self items test_domains results w = (Ok results', w') /\
      default_timeout w' = default_timeout w /\
      Forall (entry_ok catalogue) results' /\
      map fst results' = (map fst results ++ map fst items)%list.
Proof.
  induction items as [| [name addrs] rest IH]; intros results w V Inc NE F.
  - exists results, w. cbn. rewrite app_nil_r. now repeat split.
  - cbn [servers_loop].
    inversion NE as [| ? ? NE1 NE2]; subst. cbn in NE1.
    destruct addrs as [| primary others]; [congruence |].
    unfold bind at 1, lift at 1. cbn [item nth_error].
    unfold bind at 1.
    destruct (ping_dns_server_spec self primary 3 w) as (pt & w1 & -> & D1 & Mp).
    rewrite <- D1 in V.
    unfold bind at 1.
    destruct (lookup_loop_spec primary test_domains [] w1 V (Forall_nil _))
      as (lt & w2 & -> & D2 & Fl).
    rewrite <- D2 in V.
    assert (A : exists avg, measured avg /\
       (match lt with
        | [] => ret PosInf
        | _ => lift (fdiv (fsum lt) (of_int (Z.of_nat (List.length lt))))
        end) w2 = (Ok avg, w2)).
    { destruct lt as [| x lt'].
      - exists PosInf. now split.
      - destruct (average_finite (x :: lt')) as [q Eq]; [discriminate | exact Fl |].
        exists (Finite q). split; [exact I |]. unfold lift. now rewrite Eq. }
    destruct A as (avg & Ma & Ea).
    unfold bind at 1. rewrite Ea.
    destruct (IH (results ++
                  [(name, DnsResult (primary :: others) pt avg (fadd pt avg))])%list
                 w2 V) as (results' & w3 & E & D3 & F' & N').
    + intros x Hx. apply Inc. now right.
    + exact NE2.
    + apply Forall_app. split; [exact F |].
      constructor; [| constructor].
      repeat split; cbn.
      * apply Inc. now left.
      * now apply fadd_measured.
    + exists results', w3. repeat split; [exact E | congruence | exact F' |].
      rewrite N', map_app. cbn. now rewrite <- app_assoc.
Qed.

Lemma score_le_trans (a b c : pyfloat) :
  score_le a b -> score_le b c -> score_le a c.
Proof.
  destruct a, b, c; cbn; try tauto. apply Qle_trans.
Qed.

Lemma flt_score_le (a b : pyfloat) :
  measured a -> measured b -> flt a b = true -> score_le a b.
Proof.
  destruct a as [x | | |], b as [y | | |]; cbn [measured score_le];
    try tauto; try discriminate.
  intros _ _ H. apply flt_finite in H. now apply Qlt_le_weak.
Qed.

Lemma not_flt_score_le (a b : pyfloat) :
  measured a -> measured b -> flt a b = false -> score_le b a.
Proof.
  destruct a as [x | | |], b as [y | | |]; cbn [measured score_le];
    try tauto; try discriminate.
  intros _ _ H. now apply flt_finite_false in H.
Qed.

(** [min] returns an element of the list whose key is a lower bound of all
    the keys. *)
Lemma min_from_spec {A : Type} (key : A -> pyfloat) (l : list A) :
  forall best,
    Forall (fun x => measured (key x)) (best :: l) ->
    In (min_from key best l) (best :: l) /\
    forall x, In x (best :: l) -> score_le (key (min_from key best l)) (key x).
Proof.
  induction l as [| y l IH]; intros best F.
  - cbn. split; [now left |].
    intros x [<- | []]. inversion F; subst.
    destruct (key best); cbn in *; try tauto. apply Qle_refl.
  - inversion F as [| ? ? Mb F']; subst.
    inversion F' as [| ? ? My Fl]; subst.
    cbn [min_from]. destruct (flt (key y) (key best)) eqn:E.
    + destruct (IH y) as [I1 I2]; [now constructor |].
      split; [now right |].
      intros x [<- | Hx]; [| now apply I2].
      eapply score_le_trans; [apply I2; now left |].
      now apply flt_score_le.
    + destruct (IH best) as [I1 I2]; [now constructor |].
      split.
      * destruct I1 as [<- | I1]; [now left | now right; right].
      * intros x [<- | [<- | Hx]].
        -- apply I2. now left.
        -- eapply score_le_trans; [apply I2; now left |].
           now apply not_flt_score_le.
        -- apply I2. now right.
Qed.

Lemma fne_inf_measured (x : pyfloat) :
  measured x -> (fne x PosInf = true <-> finite x) /\
                (fne x PosInf = false <-> x = PosInf).
Proof.
  destruct x; cbn; intros M; try contradiction; repeat split;
    try tauto; try discriminate.
Qed.

(** C3. [benchmark_dns_servers] measures every candidate of the catalogue
    and returns the name and the addresses of the one whose score (ping
    latency plus average lookup latency, infinite when a measurement
    failed) is the minimum over all candidates when that minimum is finite;
    it returns [(None, None)] if and only if every score is infinite. *)
Theorem benchmark_dns_selects_minimum (self : NetworkOptimizer)
    (test_domains : option (list string)) (w : world host) :
  valid_timeout (default_timeout w) ->
  exists results self' answer w',
    servers_loop P self DNS_SERVERS
      (match test_domains with
       | None => default_test_domains
       | Some d => d
       end) [] w = (Ok results, w') /\
    benchmark_dns_servers P self test_domains w = (Ok (self', answer), w') /\
    map fst results = map fst DNS_SERVERS /\
    Forall (entry_ok DNS_SERVERS) results /\
    (answer = (None, None) <->
     forall e, In e results -> total_score (snd e) = PosInf) /\
    (answer <> (None, None) ->
     exists e,
       In e results /\
       answer = (Some (fst e), Some (servers (snd e))) /\
       best_dns self' = Some (fst e) /\
       finite (total_score (snd e)) /\
       forall e', In e' results ->
                  score_le (total_score (snd e)) (total_score (snd e'))).
Proof.
  intros V. unfold benchmark_dns_servers.
  set (domains := match test_domains with None => _ | Some d => d end).
  destruct (servers_loop_spec self DNS_SERVERS domains DNS_SERVERS [] w V)
    as (results & w' & E & _ & F & N).
  - apply incl_refl.
  - repeat constructor; discriminate.
  - constructor.
  - cbn [map app] in N.
    destruct results as [| first others]; [cbn in N; discriminate N |].
    assert (FM : Forall (fun x => measured (total_score (snd x))) (first :: others)).
    { eapply Forall_impl; [| exact F]. intros e (_ & Me & _). exact Me. }
    destruct (min_from_spec (fun x => total_score (snd x)) others first FM)
      as [Imin Lmin].
    set (best := min_from (fun x => total_score (snd x)) first others) in *.
    assert (Mbest : measured (total_score (snd best))).
    { rewrite Forall_forall in FM. now apply FM. }
    destruct (fne_inf_measured _ Mbest) as [Hfin Hinf].
    unfold bind. rewrite E. unfold lift, select_best. cbn [min_by].
    fold best.
    destruct (fne (total_score (snd best)) PosInf) eqn:Efne.
    + exists (first :: others), (Self (Some (fst best)) (system_info_os self)),
        (Some (fst best), Some (servers (snd best))), w'.
      split; [reflexivity |]. split; [reflexivity |].
      split; [exact N |]. split; [exact F |]. split.
      * split; [discriminate |].
        intros All. specialize (All best Imin).
        apply Hinf in All. congruence.
      * intros _. exists best.
        split; [exact Imin |]. split; [reflexivity |]. split; [reflexivity |].
        split; [now apply Hfin | exact Lmin].
    + exists (first :: others), self, (None, None), w'.
      split; [reflexivity |]. split; [reflexivity |].
      split; [exact N |]. split; [exact F |]. split.
      * split; [| reflexivity].
        intros _ e He. specialize (Lmin e He).
        assert (Ebest : total_score (snd best) = PosInf) by now apply Hinf.
        rewrite Ebest in Lmin.
        destruct (total_score (snd e)); cbn in Lmin; tauto.
      * intros C. now contradiction C.
Qed.


End Probing.


(** The benchmark on a machine where every probe answers. *)
Lemma benchmark_dns_selects_minimum_witness :
  exists results self' answer w',
    NetworkOptimizer.servers_loop Bench.platform
      (NetworkOptimizer.Self None "linux") NetworkOptimizer.DNS_SERVERS
      NetworkOptimizer.default_test_domains [] Bench.linux_user
      = (Ok results, w') /\
    NetworkOptimizer.benchmark_dns_servers Bench.platform
      (NetworkOptimizer.Self None "linux") None Bench.linux_user
      = (Ok (self', answer), w') /\
    map fst results = map fst NetworkOptimizer.DNS_SERVERS /\
    Forall (Spec.entry_ok NetworkOptimizer.DNS_SERVERS) results /\
    (answer = (None, None) <->
     forall e, In e results ->
               NetworkOptimizer.total_score (snd e) = PosInf) /\
    (answer <> (None, None) ->
     exists e,
       In e results /\
       answer = (Some (fst e), Some (NetworkOptimizer.servers (snd e))) /\
       NetworkOptimizer.best_dns self' = Some (fst e) /\
       Spec.finite (NetworkOptimizer.total_score (snd e)) /\
       forall e', In e' results ->
                  Spec.score_le (NetworkOptimizer.total_score (snd e))
                                (NetworkOptimizer.total_score (snd e'))).
Proof.
  apply (benchmark_dns_selects_minimum Bench.platform
           (NetworkOptimizer.Self None "linux") None Bench.linux_user).
  exact I.
Defined.

(** ** Bandwidth detection *)

Section Bandwidth.
Context {host : Type} (P : Platform host).
Import NetworkOptimizer.

(** C7. [detect_bandwidth] never raises: whatever exception the
    measurement meets (the import, the connection, a read of the stream,
    the division by a zero elapsed time), the result is the fallback
    10.0 Mbps; in particular when [requests.get] itself fails, and when
    the first read of the stream fails. *)
Theorem detect_bandwidth_falls_back (test_url : string) (timeout : Z)
    (w : world host) :
  (exists v w', detect_bandwidth P test_url timeout w = (Ok v, w')) /\
  (forall e w',
     measure_bandwidth P test_url timeout w = (Raise e, w') ->
     detect_bandwidth P test_url timeout w = (Ok (Finite 10), w')) /\
  (forall e t h1 h2,
     import_requests host P (w_host w) = Ok tt ->
     time_time host P (w_host w) = (t, h1) ->
     requests_get host P test_url timeout h1 = (Raise e, h2) ->
     detect_bandwidth P test_url timeout w
       = (Ok (Finite 10), World h2 (default_timeout w) (trace w))) /\
  (forall e t h1 h2 rest,
     import_requests host P (w_host w) = Ok tt ->
     time_time host P (w_host w) = (t, h1) ->
     requests_get host P test_url timeout h1 = (Ok (ReadError e :: rest), h2) ->
     detect_bandwidth P test_url timeout w
       = (Ok (Finite 10), World h2 (default_timeout w) (trace w))).
Proof.
  unfold detect_bandwidth, try_except. split; [| split; [| split]].
  - destruct (measure_bandwidth P test_url timeout w) as [[v | e] w'].
    + now exists v, w'.
    + now exists (Finite 10), w'.
  - intros e w' ->. reflexivity.
  - intros e t h1 h2 Ei Et Eg.
    unfold measure_bandwidth, bind, now, ret. unfold on_host.
    rewrite Ei. cbn [w_host default_timeout trace].
    rewrite Et. cbn [w_host default_timeout trace].
    rewrite Eg. reflexivity.
  - intros e t h1 h2 rest Ei Et Eg.
    unfold measure_bandwidth, bind, now, ret. unfold on_host.
    rewrite Ei. cbn [w_host default_timeout trace].
    rewrite Et. cbn [w_host default_timeout trace].
    rewrite Eg. reflexivity.
Qed.

End Bandwidth.

(** A refused connection gives 10.0 Mbps. *)
Lemma detect_bandwidth_falls_back_witness :
  fst (NetworkOptimizer.detect_bandwidth Bench.platform
         "http://www.google.com" 10 Bench.linux_user) = Ok (Finite 10).
Proof.
  pose proof (detect_bandwidth_falls_back Bench.platform
                "http://www.google.com" 10 Bench.linux_user) as (_ & _ & H & _).
  rewrite (H _ _ _ _ eq_refl eq_refl eq_refl). reflexivity.
Defined.

(** A stream that breaks after its first chunk gives 10.0 Mbps too. *)
Example detect_bandwidth_broken_stream :
  fst (NetworkOptimizer.detect_bandwidth Bench.streaming
         "http://www.google.com" 10 Bench.linux_user) = Ok (Finite 10).
Proof. reflexivity. Qed.

(** ** Retrying *)

Section Retry.
Context {host A : Type} (P : Platform host).
Variable func : host -> pyresult A * host.
Import NetworkOptimizer Spec.

Lemma float_fits_duration (s : Q) : is_duration s -> float_overflows s = false.
Proof.
  intros [N U]. unfold float_overflows.
  apply Bool.not_true_iff_false. intros C. apply Qle_bool_iff in C.
  rewrite Qabs_pos in C by exact N.
  assert (B : (s < inject_Z (2 ^ 63))%Q).
  { apply Qle_lt_trans with (s * inject_Z (10 ^ 9))%Q; [| exact U].
    rewrite <- (Qmult_1_r s) at 1.
    rewrite !(Qmult_comm s). apply Qmult_le_compat_r; [discriminate | exact N]. }
  apply (Qlt_irrefl s). eapply Qlt_le_trans; [exact B |].
  eapply Qle_trans; [| exact C]. discriminate.
Qed.

Lemma fpow_nonneg (q : Q) (n : Z) :
  (0 <= n)%Z -> is_duration (q ^ n) -> fpow (Finite q) n = Ok (Finite (q ^ n)).
Proof.
  intros H D. unfold fpow.
  destruct (Z.eqb_spec n 0) as [-> | N]; [reflexivity |].
  destruct (Z.ltb_spec n 0); [lia |]. cbn [andb].
  now rewrite (float_fits_duration _ D).
Qed.

(** An attempt that returns ends the loop. *)
Lemma attempt_returns (max_retries attempt : Z) (bf : pyfloat)
    (rest : list Z) (w : world host) (v : A) (h : host) :
  func (w_host w) = (Ok v, h) ->
  retry_loop P func max_retries bf (attempt :: rest) w
    = (Ok (Some v), World h (default_timeout w) (trace w ++ [EvInvoke])).
Proof.
  intros E. cbn [retry_loop].
  unfold try_except, bind, emit, on_host, ret; cbn [w_host default_timeout trace].
  now rewrite E.
Qed.

(** The last attempt, when it fails, hands its failure to the caller. *)
Lemma attempt_fails_last (max_retries : Z) (bf : pyfloat) (rest : list Z)
    (w : world host) (e : exn) (h : host) :
  func (w_host w) = (Raise e, h) ->
  retry_loop P func max_retries bf ((max_retries - 1)%Z :: rest) w
    = (Raise e, World h (default_timeout w) (trace w ++ [EvInvoke])).
Proof.
  intros E. cbn [retry_loop].
  unfold try_except, bind, emit, on_host, ret; cbn [w_host default_timeout trace].
  rewrite E, Z.eqb_refl. reflexivity.
Qed.

(** An earlier attempt, when it fails, is followed by its wait and by the
    remaining attempts. *)
Lemma attempt_fails_early (max_retries attempt : Z) (bf : Q) (rest : list Z)
    (w : world host) (e : exn) (h : host) :
  is_duration (bf ^ attempt) -> (0 <= attempt)%Z ->
  attempt <> (max_retries - 1)%Z ->
  func (w_host w) = (Raise e, h) ->
  retry_loop P func max_retries (Finite bf) (attempt :: rest) w
    = retry_loop P func max_retries (Finite bf) rest
        (World (sleeping host P (bf ^ attempt) h) (default_timeout w)
               (trace w ++ [EvInvoke; EvSleep (bf ^ attempt)])).
Proof.
  intros Hbf Ha Hne E. cbn [retry_loop].
  unfold try_except at 1.
  unfold bind at 1 2, emit, on_host, ret; cbn [w_host default_timeout trace].
  rewrite E.
  destruct (Z.eqb_spec attempt (max_retries - 1)) as [C | _]; [contradiction |].
  unfold bind at 1, lift. rewrite fpow_nonneg by assumption.
  unfold bind at 1, time_sleep.
  rewrite (fits_time_duration _ Hbf). cbn [negb].
  rewrite (is_lt_nonneg _ (proj1 Hbf)).
  unfold bind at 1, emit, on_host; cbn [w_host default_timeout trace].
  now rewrite <- app_assoc.
Qed.

Lemma retry_trace_step (bf : Q) (k n : nat) :
  retry_trace bf k (S n)
    = [EvInvoke; EvSleep (bf ^ Z.of_nat k)] ++ retry_trace bf (S k) n.
Proof. reflexivity. Qed.



Lemma invocations_app (s t : list event) :
  invocations (s ++ t) = (invocations s + invocations t)%nat.
Proof. unfold invocations. now rewrite filter_app, length_app. Qed.







(** C10. With [max_retries <= 0] the loop has no attempt to make:
    [smart_retry] returns [None], the operation is never called, nothing is
    slept and nothing is raised. *)
Theorem smart_retry_without_attempts (max_retries : Z) (bf : pyfloat)
    (w : world host) :
  (max_retries <= 0)%Z ->
  smart_retry P func max_retries bf w = (Ok None, w) /\
  invocations (trace (snd (smart_retry P func max_retries bf w)))
    = invocations (trace w).
Proof.
  intros H. unfold smart_retry, range.
  replace (Z.to_nat max_retries) with 0%nat by lia.
  now split.
Qed.

End Retry.



(** No attempt with [max_retries = 0]. *)
Lemma smart_retry_without_attempts_witness :
  NetworkOptimizer.smart_retry Bench.platform Bench.flaky 0 (Finite (3 # 2))
    Bench.linux_user = (Ok None, Bench.linux_user).
Proof.
  apply (smart_retry_without_attempts Bench.platform Bench.flaky 0
           (Finite (3 # 2)) Bench.linux_user).
  lia.
Defined.

(** ** System tuning *)

Section Tuning.
Context {host : Type} (P : Platform host).
Import SystemNetworkTuner Spec.

Lemma run_spec (cmd : list string) (t : option Z) (w : world host) :
  exists r h,
    run P cmd t w = (r, World h (default_timeout w) (trace w ++ [EvRun cmd])).
Proof.
  unfold run, bind, emit, on_host; cbn.
  destruct (subprocess_run host P cmd t (w_host w)) as [r h].
  now exists r, h.
Qed.

Lemma check_root_privileges_spec (self : SystemNetworkTuner) (w : world host) :
  exists b,
    check_root_privileges P self w
      = (Ok b, World (w_host w) (default_timeout w) (trace w ++ [EvPrivilegeCheck])).
Proof.
  unfold check_root_privileges, bind, emit; cbn.
  destruct (String.eqb (os_type self) "windows").
  - unfold try_except, bind, on_host, ret; cbn.
    destruct (IsUserAnAdmin host P (w_host w)) as [n | e]; now eexists.
  - now eexists.
Qed.

Lemma is_bbr_available_spec (self : SystemNetworkTuner) (w : world host) :
  exists b h,
    is_bbr_available P self w
      = (Ok b, World h (default_timeout w) (trace w ++ bbr_probe self)).
Proof.
  unfold is_bbr_available, bbr_probe, try_except.
  destruct (String.eqb (os_type self) "linux").
  - unfold bind at 1.
    destruct (run_spec bbr_query None w) as (r & h & ->).
    destruct r as [result | e]; [| now exists false, h].
    destruct (returncode result =? 0)%Z; [| now exists false, h].
    unfold bind, lift, ret.
    destruct (item _ 1) as [field | e]; now eexists _, h.
  - exists false, (w_host w). unfold ret. rewrite app_nil_r. now destruct w.
Qed.

Lemma get_network_optimization_commands_spec (self : SystemNetworkTuner)
    (w : world host) :
  exists commands h,
    get_network_optimization_commands P self w
      = (Ok commands, World h (default_timeout w) (trace w ++ bbr_probe self)) /\
    In commands [linux_commands ++ bbr_commands; linux_commands ++ [];
                 darwin_commands; windows_commands; []].
Proof.
  unfold get_network_optimization_commands.
  destruct (is_bbr_available_spec self w) as (b & h & E).
  unfold bbr_probe in *.
  destruct (String.eqb (os_type self) "linux").
  - unfold bind, ret. rewrite E.
    exists (linux_commands ++ (if b then bbr_commands else [])), h.
    split; [reflexivity |]. destruct b; cbn; tauto.
  - rewrite app_nil_r.
    destruct (String.eqb (os_type self) "darwin");
      [| destruct (String.eqb (os_type self) "windows")];
      eexists _, (w_host w); unfold ret; (split; [now destruct w |]);
      cbn; tauto.
Qed.

Lemma print_commands_spec (commands : list string) :
  forall w : world host,
    print_commands commands w
      = (Ok tt, World (w_host w) (default_timeout w) (trace w ++ listing commands)).
Proof.
  induction commands as [| cmd rest IH]; intros w.
  - cbn. unfold ret. rewrite app_nil_r. now destruct w.
  - cbn [print_commands]. unfold bind, print, emit. rewrite IH. cbn.
    now rewrite <- app_assoc.
Qed.

Lemma execute_commands_total (commands : list string) :
  forall (success_count : Z) (w : world host),
    exists n w', execute_commands P commands success_count w = (Ok n, w').
Proof.
  induction commands as [| cmd rest IH]; intros success_count w.
  - now exists success_count, w.
  - cbn [execute_commands]. unfold bind at 1, try_except, bind at 1.
    destruct (run_spec (split_ws cmd) (Some 30%Z) w) as (r & h & ->).
    destruct r as [result | e]; unfold ret; apply IH.
Qed.

Lemma apply_optimizations_total (self : SystemNetworkTuner) (dry_run : bool)
    (w : world host) :
  exists b w', apply_optimizations P self dry_run w = (Ok b, w').
Proof.
  unfold apply_optimizations.
  destruct dry_run; cbn [negb].
  - unfold bind at 1, ret at 1. unfold bind at 1.
    destruct (get_network_optimization_commands_spec self w)
      as (commands & h & -> & _).
    unfold bind, ret. rewrite print_commands_spec. now eexists _, _.
  - unfold bind at 1 2.
    destruct (check_root_privileges_spec self w) as (b & ->).
    unfold ret at 1. destruct b; cbn [negb]; [| now eexists _, _].
    unfold bind at 1.
    set (w1 := World (w_host w) (default_timeout w) (trace w ++ [EvPrivilegeCheck])).
    destruct (get_network_optimization_commands_spec self w1)
      as (commands & h & -> & _).
    unfold bind.
    destruct (execute_commands_total commands 0
                (World h (default_timeout w1) (trace w1 ++ bbr_probe self)))
      as (n & w' & ->).
    unfold ret. now eexists _, _.
Qed.

Lemma create_persistent_config_total (self : SystemNetworkTuner)
    (w : world host) :
  exists b w', create_persistent_config P self w = (Ok b, w').
Proof.
  unfold create_persistent_config.
  destruct (String.eqb (os_type self) "linux"); [| now eexists _, _].
  unfold try_except, bind, emit, on_host, ret; cbn.
  destruct (open_write host P config_file config_content (w_host w)) as [[[] | e] h];
    now eexists _, _.
Qed.

Lemma executions_app (s t : list event) :
  executions (s ++ t) = (executions s + executions t)%nat.
Proof. unfold executions. now rewrite filter_app, length_app. Qed.

Lemma executions_listing (commands : list string) :
  executions (listing commands) = 0%nat.
Proof. induction commands as [| cmd rest IH]; [reflexivity | exact IH]. Qed.

Lemma executions_bbr_probe (self : SystemNetworkTuner) :
  executions (bbr_probe self)
    = if String.eqb (os_type self) "linux" then 1%nat else 0%nat.
Proof. unfold bbr_probe. now destruct (String.eqb (os_type self) "linux"). Qed.

(** No tuning command splits into the two words of the BBR query. *)
Lemma tuning_command_is_not_query (cmd : string) :
  In cmd (linux_commands ++ bbr_commands ++ darwin_commands ++ windows_commands) ->
  List.length (split_ws cmd) <> 2%nat.
Proof.
  assert (C : forallb (fun c => negb (Nat.eqb (List.length (split_ws c)) 2))
                (linux_commands ++ bbr_commands ++ darwin_commands ++ windows_commands)
              = true) by (vm_compute; reflexivity).
  rewrite forallb_forall in C. intros H E.
  specialize (C cmd H). rewrite E in C. discriminate C.
Qed.

Lemma command_set_known (commands : list string) (cmd : string) :
  In commands [linux_commands ++ bbr_commands; linux_commands ++ [];
               darwin_commands; windows_commands; []] ->
  In cmd commands ->
  In cmd (linux_commands ++ bbr_commands ++ darwin_commands ++ windows_commands).
Proof.
  intros [<- | [<- | [<- | [<- | [<- | []]]]]] H.
  - apply in_app_or in H. rewrite !in_app_iff. tauto.
  - apply in_app_or in H. rewrite !in_app_iff. destruct H as [H | []]. tauto.
  - rewrite !in_app_iff. tauto.
  - rewrite !in_app_iff. tauto.
  - destruct H.
Qed.

(** C5, as the code has it.  [apply_optimizations(dry_run=True)] makes no
    privilege check, runs none of the tuning commands, prints every command
    of the command set and returns [True].  The command-execution facility
    is used for one thing only: on Linux, building the command set asks
    [sysctl] once whether BBR is available; on any other system it is not
    used at all. *)
Theorem dry_run_lists_without_executing (self : SystemNetworkTuner)
    (w : world host) :
  exists commands h,
    get_network_optimization_commands P self w
      = (Ok commands, World h (default_timeout w) (trace w ++ bbr_probe self)) /\
    apply_optimizations P self true w
      = (Ok true,
         World h (default_timeout w)
               (trace w ++ bbr_probe self ++ listing commands)) /\
    ~ In EvPrivilegeCheck (bbr_probe self ++ listing commands) /\
    (forall cmd, In cmd commands ->
       ~ In (EvRun (split_ws cmd)) (bbr_probe self ++ listing commands)) /\
    executions (bbr_probe self ++ listing commands)
      = if String.eqb (os_type self) "linux" then 1%nat else 0%nat.
Proof.
  destruct (get_network_optimization_commands_spec self w)
    as (commands & h & E & K).
  exists commands, h. split; [exact E |]. split; [| split; [| split]].
  - unfold apply_optimizations; cbn [negb].
    unfold bind at 1, ret at 1. unfold bind at 1. rewrite E.
    unfold bind, ret. rewrite print_commands_spec. cbn.
    now rewrite <- app_assoc.
  - intros H. apply in_app_or in H. destruct H as [H | H].
    + unfold bbr_probe in H.
      destruct (String.eqb (os_type self) "linux"); cbn in H;
        intuition discriminate.
    + unfold listing in H. apply in_map_iff in H.
      destruct H as (c & C & _). discriminate C.
  - intros cmd Hc H. apply in_app_or in H. destruct H as [H | H].
    + unfold bbr_probe in H.
      destruct (String.eqb (os_type self) "linux"); cbn in H; [| tauto].
      destruct H as [H | []]. injection H as H.
      apply (tuning_command_is_not_query cmd).
      * now apply (command_set_known commands).
      * now rewrite <- H.
    + unfold listing in H. apply in_map_iff in H.
      destruct H as (c & C & _). discriminate C.
  - now rewrite executions_app, executions_listing, executions_bbr_probe, Nat.add_0_r.
Qed.

Lemma apply_denied (self : SystemNetworkTuner) (w : world host) :
  fst (check_root_privileges P self w) = Ok false ->
  apply_optimizations P self false w
    = (Ok false,
       World (w_host w) (default_timeout w) (trace w ++ [EvPrivilegeCheck])).
Proof.
  intros H.
  unfold apply_optimizations; cbn [negb]. unfold bind at 1 2.
  destruct (check_root_privileges_spec self w) as (b & Eb).
  rewrite Eb in *. cbn in H. injection H as ->. reflexivity.
Qed.

(** C6. When the privilege check answers no, [apply_optimizations] with
    [dry_run=False] returns [False] at once: the privilege check is all
    that happened, no command was executed and the host is as it was. *)
Theorem apply_without_privilege_runs_nothing (self : SystemNetworkTuner)
    (w : world host) :
  fst (check_root_privileges P self w) = Ok false ->
  apply_optimizations P self false w
    = (Ok false,
       World (w_host w) (default_timeout w) (trace w ++ [EvPrivilegeCheck])) /\
  executions (trace (snd (apply_optimizations P self false w)))
    = executions (trace w) /\
  w_host (snd (apply_optimizations P self false w)) = w_host w.
Proof.
  intros H.
  rewrite (apply_denied self w H). cbn [snd trace w_host]. repeat split.
  rewrite executions_app. cbn. lia.
Qed.

(** C9, as the code has it.  The tuning block of [main] always ends in
    [sys.exit(0)]: after a dry-run listing, after an apply attempt however
    many commands succeeded, and also when privilege is missing in
    non-dry-run mode.  In that last case [apply_optimizations] has executed
    nothing and returned [False]; [main] ignores the result, goes on to
    [create_persistent_config] and exits with code 0 like in the other
    cases. *)
Theorem tune_always_exits_zero (a : Cli.args) (w : world host) :
  (exists w', Cli.tune P a w = (Ok (Cli.Exit 0), w')) /\
  (orb (Cli.tune_system a) (Cli.tune_dry_run a) = true ->
   andb (Cli.is_none (Cli.video a)) (Cli.is_none (Cli.youtube a)) = false ->
   andb (Cli.truthy (Cli.video a)) (Cli.truthy (Cli.youtube a)) = false ->
   exists w', Cli.upload P a w = (Ok (Cli.Exit 0), w')) /\
  (Cli.tune_dry_run a = false ->
   fst (check_root_privileges P (init P (w_host w)) w) = Ok false ->
   exists persisted w',
     create_persistent_config P (init P (w_host w))
       (World (w_host w) (default_timeout w) (trace w ++ [EvPrivilegeCheck]))
       = (Ok persisted, w') /\
     Cli.tune P a w = (Ok (Cli.Exit 0), w')).
Proof.
  assert (T : exists w', Cli.tune P a w = (Ok (Cli.Exit 0), w')).
  { unfold Cli.tune. unfold bind at 1. unfold bind at 1.
    destruct (apply_optimizations_total (init P (w_host w)) (Cli.tune_dry_run a) w)
      as (b & w1 & ->).
    unfold bind at 1.
    destruct (Cli.tune_dry_run a); cbn [negb].
    - unfold ret. now eexists.
    - unfold bind at 1.
      destruct (create_persistent_config_total (init P (w_host w)) w1)
        as (c & w2 & ->).
      unfold ret. now eexists. }
  split; [exact T |]. split.
  - intros Ht Hs Hb. unfold Cli.upload. now rewrite Hs, Hb, Ht.
  - intros Hd Hp. unfold Cli.tune. rewrite Hd. cbn [negb].
    unfold bind at 1. unfold bind at 1.
    rewrite (apply_denied (init P (w_host w)) w Hp).
    unfold bind at 1. unfold bind at 1.
    destruct (create_persistent_config_total (init P (w_host w))
                (World (w_host w) (default_timeout w) (trace w ++ [EvPrivilegeCheck])))
      as (c & w2 & E).
    rewrite E. unfold ret. now exists c, w2.
Qed.

End Tuning.

(** The dry run on a Mac, without privilege. *)
Lemma dry_run_lists_without_executing_witness :
  exists commands h,
    SystemNetworkTuner.get_network_optimization_commands Bench.platform
      (SystemNetworkTuner.Self "darwin" true) Bench.mac_user
      = (Ok commands,
         World h (Some 7%Q)
               ([] ++ Spec.bbr_probe (SystemNetworkTuner.Self "darwin" true))) /\
    SystemNetworkTuner.apply_optimizations Bench.platform
      (SystemNetworkTuner.Self "darwin" true) true Bench.mac_user
      = (Ok true,
         World h (Some 7%Q)
               ([] ++ Spec.bbr_probe (SystemNetworkTuner.Self "darwin" true)
                   ++ Spec.listing commands)) /\
    ~ In EvPrivilegeCheck
         (Spec.bbr_probe (SystemNetworkTuner.Self "darwin" true)
          ++ Spec.listing commands) /\
    (forall cmd, In cmd commands ->
       ~ In (EvRun (split_ws cmd))
            (Spec.bbr_probe (SystemNetworkTuner.Self "darwin" true)
             ++ Spec.listing commands)) /\
    Spec.executions
      (Spec.bbr_probe (SystemNetworkTuner.Self "darwin" true)
       ++ Spec.listing commands) = 0%nat.
Proof.
  exact (dry_run_lists_without_executing Bench.platform
           (SystemNetworkTuner.Self "darwin" true) Bench.mac_user).
Defined.

(** C5 as the specification states it fails on Linux: the dry run there
    calls the command-execution facility, once. *)
Lemma dry_run_calls_the_facility_on_linux :
  Spec.executions
    (trace (snd (SystemNetworkTuner.apply_optimizations Bench.platform
                   (SystemNetworkTuner.init Bench.platform (w_host Bench.linux_user))
                   true Bench.linux_user))) = 1%nat /\
  Spec.executions
    (trace (snd (SystemNetworkTuner.apply_optimizations Bench.platform
                   (SystemNetworkTuner.init Bench.platform (w_host Bench.linux_user))
                   true Bench.linux_user))) <> 0%nat.
Proof. split; [reflexivity | discriminate]. Qed.

(** An unprivileged user on Linux asks for the real thing. *)
Lemma apply_without_privilege_runs_nothing_witness :
  SystemNetworkTuner.apply_optimizations Bench.platform
    (SystemNetworkTuner.Self "linux" true) false Bench.linux_user
    = (Ok false, World (w_host Bench.linux_user) None ([] ++ [EvPrivilegeCheck])).
Proof.
  apply (apply_without_privilege_runs_nothing Bench.platform
           (SystemNetworkTuner.Self "linux" true) Bench.linux_user).
  reflexivity.
Defined.

(** [--tune-system] as root on Linux: sixteen commands, then exit 0. *)
Lemma tune_always_exits_zero_witness :
  exists w',
    Cli.upload Bench.platform (Cli.Args (Some "clip.mp4") None true false)
      Bench.linux_root = (Ok (Cli.Exit 0), w').
Proof.
  apply (tune_always_exits_zero Bench.platform
           (Cli.Args (Some "clip.mp4") None true false) Bench.linux_root);
    reflexivity.
Defined.

(** C9 as the specification states it fails: without privilege and not in
    dry-run mode, the tuning block does not stop; it tries to write the
    persistent configuration and ends in [sys.exit(0)] like a completed
    run. *)
Lemma tune_without_privilege_exits_zero :
  fst (SystemNetworkTuner.check_root_privileges Bench.platform
         (SystemNetworkTuner.init Bench.platform (w_host Bench.linux_user))
         Bench.linux_user) = Ok false /\
  Cli.upload Bench.platform (Cli.Args (Some "clip.mp4") None true false)
    Bench.linux_user
    = (Ok (Cli.Exit 0),
       World (w_host Bench.linux_user) None
             [EvPrivilegeCheck; EvWrite SystemNetworkTuner.config_file]).
Proof. split; reflexivity. Qed.

(** * Further properties of the code *)

(** ** Transfer profiles and concurrency, on every input *)

Section Derivations.
Import NetworkUtils Spec.

(** [int] of a finite float is the quotient that rounds toward zero. *)
Lemma py_int_finite (q : Q) :
  py_int (Finite q) = Ok (Z.quot (Qnum q) (Zpos (Qden q))).
Proof. reflexivity. Qed.

Lemma div_le_cross (a b c d : Z) :
  (0 < c)%Z -> (0 < d)%Z -> (a * d <= b * c)%Z -> (a / c <= b / d)%Z.
Proof.
  intros Hc Hd H.
  apply Z.div_le_lower_bound; [exact Hd |].
  assert (Hq := Z.mul_div_le a c Hc).
  apply (Z.mul_le_mono_pos_r _ _ c Hc).
  apply Z.le_trans with (a * d)%Z; [| exact H].
  replace (d * (a / c) * c)%Z with (c * (a / c) * d)%Z by ring.
  apply Z.mul_le_mono_nonneg_r; lia.
Qed.

Lemma trunc_le (x y : Q) :
  (x <= y)%Q ->
  (Z.quot (Qnum x) (Zpos (Qden x)) <= Z.quot (Qnum y) (Zpos (Qden y)))%Z.
Proof.
  destruct x as [a c], y as [b d]. unfold Qle; cbn [Qnum Qden]. intros H.
  destruct (Z.le_gt_cases 0 a) as [Ha | Ha].
  - assert (Hb : (0 <= b)%Z) by nia.
    rewrite !Z.quot_div_nonneg by lia.
    apply div_le_cross; lia.
  - destruct (Z.le_gt_cases 0 b) as [Hb | Hb].
    + assert (Z.quot a (Z.pos c) <= 0)%Z.
      { replace a with (- (- a))%Z by lia. rewrite (Z.quot_opp_l (- a)) by lia.
        assert (0 <= Z.quot (- a) (Z.pos c))%Z by (apply Z.quot_pos; lia). lia. }
      assert (0 <= Z.quot b (Z.pos d))%Z by (apply Z.quot_pos; lia).
      lia.
    + replace a with (- (- a))%Z by lia. replace b with (- (- b))%Z by lia.
      rewrite (Z.quot_opp_l (- a)), (Z.quot_opp_l (- b)) by lia.
      rewrite !Z.quot_div_nonneg by lia.
      apply -> Z.opp_le_mono.
      apply div_le_cross; lia.
Qed.

Lemma connections_for_trunc (q : Q) :
  connections_for (Finite q)
    = Ok (Z.max 2 (Z.min 16
            (Z.quot (Qnum (q / 10)) (Zpos (Qden (q / 10))) + 2))).
Proof. reflexivity. Qed.

(** More bandwidth never gives fewer connections: for finite [a <= b] of
    any sign, the connection count for [a] is at most the one for [b]. *)
Theorem connections_monotone (a b : Q) :
  (a <= b)%Q ->
  exists m n,
    connections_for (Finite a) = Ok m /\
    connections_for (Finite b) = Ok n /\
    (m <= n)%Z.
Proof.
  intros H. rewrite !connections_for_trunc. eexists _, _.
  split; [reflexivity |]. split; [reflexivity |].
  assert (T : (a / 10 <= b / 10)%Q).
  { unfold Qdiv. apply Qmult_le_compat_r; [exact H | discriminate]. }
  apply trunc_le in T. lia.
Qed.

Lemma connections_monotone_witness :
  exists m n,
    connections_for (Finite (-3)) = Ok m /\
    connections_for (Finite 47) = Ok n /\
    (m <= n)%Z.
Proof.
  apply (connections_monotone (-3) 47). discriminate.
Defined.

(** The connection count exists exactly for finite bandwidths, and then
    lies between 2 and 16, is 2 for every bandwidth below 10 (negative ones
    included) and 16 from 140 on; an infinite bandwidth is an
    [OverflowError] and NaN a [ValueError], both raised by [int]. *)
Theorem connections_for_every_float (b : pyfloat) :
  match b with
  | Finite q =>
      exists n, connections_for b = Ok n /\ (2 <= n <= 16)%Z /\
                ((q < 10)%Q -> n = 2%Z) /\ ((140 <= q)%Q -> n = 16%Z)
  | PosInf | NegInf =>
      connections_for b
        = Raise (Exn "OverflowError" "cannot convert float infinity to integer")
  | NaN =>
      connections_for b
        = Raise (Exn "ValueError" "cannot convert float NaN to integer")
  end.
Proof.
  destruct b as [q | | |]; try reflexivity.
  rewrite connections_for_trunc. eexists. split; [reflexivity |].
  split; [lia |]. split.
  - intros H.
    assert (L : (q / 10 < 1)%Q).
    { apply Qlt_shift_div_r; [reflexivity |]. now rewrite Qmult_1_l. }
    assert (U : (Z.quot (Qnum (q / 10)) (Zpos (Qden (q / 10))) <= 0)%Z).
    { destruct (q / 10)%Q as [n d]. unfold Qlt in L; cbn in *.
      destruct (Z.le_gt_cases 0 n).
      - rewrite Z.quot_small; lia.
      - replace n with (- (- n))%Z by lia. rewrite (Z.quot_opp_l (- n)) by lia.
        assert (0 <= Z.quot (- n) (Z.pos d))%Z by (apply Z.quot_pos; lia). lia. }
    lia.
  - intros H.
    assert (T : (14 <= q / 10)%Q).
    { apply Qle_shift_div_l; [reflexivity | exact H]. }
    apply trunc_le in T.
    change (Z.quot (Qnum 14) (Z.pos (Qden 14))) with 14%Z in T. lia.
Qed.

Lemma connections_for_every_float_witness :
  exists n, connections_for (Finite (-25)) = Ok n /\ (2 <= n <= 16)%Z /\
            ((-25 < 10)%Q -> n = 2%Z) /\ ((140 <= -25)%Q -> n = 16%Z).
Proof. exact (connections_for_every_float (Finite (-25))). Defined.

Lemma get_retry_config_is_a_profile_holds (bandwidth_mbps : option pyfloat) :
  In (get_retry_config bandwidth_mbps) [slow_profile; medium_profile; fast_profile] /\
  get_retry_config None = get_retry_config (Some (Finite 10)) /\
  get_retry_config None = medium_profile /\
  get_retry_config (Some NaN) = fast_profile.
Proof.
  split; [| repeat split].
  unfold get_retry_config.
  destruct (flt _ (of_int 5)); [now left |].
  destruct (flt _ (of_int 25)); cbn; tauto.
Qed.

(** Whatever the argument ([None], NaN and the infinities included),
    [get_retry_config] returns one of the three profiles; a missing
    bandwidth counts as 10 Mbps and gets the medium profile, and NaN, which
    is below nothing, gets the fast one. *)
Theorem get_retry_config_is_a_profile (bandwidth_mbps : option pyfloat) :
  In (get_retry_config bandwidth_mbps) [slow_profile; medium_profile; fast_profile] /\
  get_retry_config None = get_retry_config (Some (Finite 10)) /\
  get_retry_config None = medium_profile /\
  get_retry_config (Some NaN) = fast_profile.
Proof. apply get_retry_config_is_a_profile_holds. Qed.

(** A higher bandwidth never gets more retries, a longer timeout or
    smaller chunks. *)
Theorem get_retry_config_monotone (a b : Q) :
  (a <= b)%Q ->
  (max_retries (get_retry_config (Some (Finite b)))
     <= max_retries (get_retry_config (Some (Finite a))))%Z /\
  (timeout (get_retry_config (Some (Finite b)))
     <= timeout (get_retry_config (Some (Finite a))))%Z /\
  (chunk_size (get_retry_config (Some (Finite a)))
     <= chunk_size (get_retry_config (Some (Finite b))))%Z.
Proof.
  intros H. unfold get_retry_config.
  change (of_int 5) with (Finite 5); change (of_int 25) with (Finite 25).
  destruct (flt (Finite a) (Finite 5)) eqn:A5;
    destruct (flt (Finite a) (Finite 25)) eqn:A25;
    destruct (flt (Finite b) (Finite 5)) eqn:B5;
    destruct (flt (Finite b) (Finite 25)) eqn:B25;
    cbn; try (repeat split; lia); exfalso;
    repeat match goal with
           | E : flt _ _ = true |- _ => apply flt_finite in E
           | E : flt _ _ = false |- _ => apply flt_finite_false in E
           end.
  all: lra.
Qed.

Lemma get_retry_config_monotone_witness :
  (max_retries (get_retry_config (Some (Finite 30)))
     <= max_retries (get_retry_config (Some (Finite 3))))%Z /\
  (timeout (get_retry_config (Some (Finite 30)))
     <= timeout (get_retry_config (Some (Finite 3))))%Z /\
  (chunk_size (get_retry_config (Some (Finite 3)))
     <= chunk_size (get_retry_config (Some (Finite 30))))%Z.
Proof.
  apply (get_retry_config_monotone 3 30). discriminate.
Defined.

End Derivations.

(** ** Retrying, beyond the contract *)

Section RetryOutcomes.
Context {host A : Type} (P : Platform host).
Variable func : host -> pyresult A * host.
Import NetworkUtils NetworkOptimizer Spec.

(** What the loop over the attempts [k .. k + n] leaves: some failed
    attempts with their waits, then one last call whose outcome is the
    outcome of the loop. *)
Lemma retry_loop_shape (max_retries : Z) (bf : Q) (n : nat) :
  can_wait bf max_retries ->
  forall (k : nat) (w : world host),
    max_retries = Z.of_nat (k + S n) ->
    exists (j : nat) (h : host) (w' : world host),
      (j <= n)%nat /\
      trace w' = trace w ++ retry_trace bf k j ++ [EvInvoke] /\
      default_timeout w' = default_timeout w /\
      ((exists v,
          func h = (Ok v, w_host w') /\
          retry_loop P func max_retries (Finite bf) (map Z.of_nat (seq k (S n))) w
            = (Ok (Some v), w')) \/
       (exists e,
          func h = (Raise e, w_host w') /\ j = n /\
          retry_loop P func max_retries (Finite bf) (map Z.of_nat (seq k (S n))) w
            = (Raise e, w'))).
Proof.
  intros Hbf. induction n as [| n IH]; intros k w Hm.
  - destruct (func (w_host w)) as [[v | e] h1] eqn:E.
    + exists 0%nat, (w_host w), (World h1 (default_timeout w) (trace w ++ [EvInvoke])).
      repeat split; [lia |]. left. exists v. split; [exact E |].
      cbn [seq map]. now apply attempt_returns.
    + exists 0%nat, (w_host w), (World h1 (default_timeout w) (trace w ++ [EvInvoke])).
      repeat split; [lia |]. right. exists e. repeat split; [exact E |].
      cbn [seq map]. replace (Z.of_nat k) with (max_retries - 1)%Z by lia.
      now apply attempt_fails_last.
  - destruct (func (w_host w)) as [[v | e] h1] eqn:E.
    + exists 0%nat, (w_host w), (World h1 (default_timeout w) (trace w ++ [EvInvoke])).
      repeat split; [lia |]. left. exists v. split; [exact E |].
      remember (S n) as m. cbn [seq map]. now apply attempt_returns.
    + set (w1 := World (sleeping host P (bf ^ Z.of_nat k) h1) (default_timeout w)
                       (trace w ++ [EvInvoke; EvSleep (bf ^ Z.of_nat k)])).
      destruct (IH (S k) w1 ltac:(lia)) as (j & h & w' & Hj & Ht & Hd & Hr).
      exists (S j), h, w'. split; [lia |]. split.
      { rewrite Ht. subst w1. cbn [trace].
        rewrite retry_trace_step, <- !app_assoc. reflexivity. }
      split; [exact Hd |].
      assert (Step :
        retry_loop P func max_retries (Finite bf)
                   (map Z.of_nat (seq k (S (S n)))) w
        = retry_loop P func max_retries (Finite bf)
                     (map Z.of_nat (seq (S k) (S n))) w1).
      { remember (S n) as m. cbn [seq map]. subst w1.
        apply (attempt_fails_early P func _ _ _ _ _ e h1);
          [apply Hbf; lia | lia | lia | exact E]. }
      rewrite Step.
      destruct Hr as [(v & Hv & R) | (e' & He & -> & R)].
      * left. now exists v.
      * right. now exists e'.
Qed.

Lemma invocations_retry_trace (bf : Q) (j k : nat) :
  invocations (retry_trace bf k j) = j.
Proof.
  revert k. induction j as [| j IH]; intros k; [reflexivity |].
  rewrite retry_trace_step, invocations_app, IH. reflexivity.
Qed.

Lemma smart_retry_outcome_from_operation_holds (max_retries : Z) (bf : Q)
    (w : world host) :
  (1 <= max_retries)%Z -> can_wait bf max_retries ->
  exists (j : nat) (h : host) (r : pyresult (option A)) (w' : world host),
    smart_retry P func max_retries (Finite bf) w = (r, w') /\
    (Z.of_nat j < max_retries)%Z /\
    trace w' = trace w ++ retry_trace bf 0 j ++ [EvInvoke] /\
    default_timeout w' = default_timeout w /\
    match r with
    | Ok (Some v) => func h = (Ok v, w_host w')
    | Ok None => False
    | Raise e => func h = (Raise e, w_host w') /\ Z.of_nat j = (max_retries - 1)%Z
    end.
Proof.
  intros Hmax Hbf. unfold smart_retry, range.
  replace (Z.to_nat max_retries) with (S (Z.to_nat (max_retries - 1))) by lia.
  destruct (retry_loop_shape max_retries bf (Z.to_nat (max_retries - 1)) Hbf 0 w
              ltac:(lia))
    as (j & h & w' & Hj & Ht & Hd & [(v & Hv & R) | (e & He & -> & R)]).
  - exists j, h, (Ok (Some v)), w'. repeat split; try assumption. lia.
  - exists (Z.to_nat (max_retries - 1)), h, (Raise e), w'.
    repeat split; try assumption; lia.
Qed.


Lemma slept_app (s t : list event) : slept (s ++ t) == slept s + slept t.
Proof.
  induction s as [| ev s IH]; cbn [app slept].
  - now rewrite Qplus_0_l.
  - destruct ev; try exact IH. rewrite IH. ring.
Qed.

(** The retry loop run with the profile [get_retry_config] gives for a
    bandwidth: whatever the bandwidth and the operation, it never returns
    [None], calls the operation between once and [max_retries] (at most
    five) times, and sleeps at most 15 seconds in total. *)
Theorem smart_retry_with_profile (bandwidth_mbps : option pyfloat)
    (w : world host) :
  exists (r : pyresult (option A)) (w' : world host) (new : list event),
    smart_retry P func
      (max_retries (get_retry_config bandwidth_mbps))
      (backoff_factor (get_retry_config bandwidth_mbps)) w = (r, w') /\
    r <> Ok None /\
    trace w' = trace w ++ new /\
    (1 <= invocations new <= Z.to_nat (max_retries (get_retry_config bandwidth_mbps)))%nat /\
    (invocations new <= 5)%nat /\
    (slept new <= 15)%Q.
Proof.
  assert (Shape : forall (m : Z) (bf : Q),
    (1 <= m)%Z -> can_wait bf m ->
    exists (r : pyresult (option A)) (w' : world host) (j : nat),
      smart_retry P func m (Finite bf) w = (r, w') /\
      r <> Ok None /\ (Z.of_nat j < m)%Z /\
      trace w' = trace w ++ retry_trace bf 0 j ++ [EvInvoke]).
  { intros m bf Hm Hbf.
    destruct (smart_retry_outcome_from_operation_holds m bf w Hm Hbf)
      as (j & h & r & w' & E & Hj & Ht & _ & Hr).
    exists r, w', j. repeat split; try assumption.
    intros ->. exact Hr. }
  assert (Count : forall bf j,
    invocations (retry_trace bf 0 j ++ [EvInvoke]) = S j).
  { intros bf j. rewrite invocations_app, invocations_retry_trace. cbn. lia. }
  destruct (get_retry_config_is_a_profile_holds bandwidth_mbps) as [[<- | [<- | [<- | []]]] _];
    cbn [max_retries backoff_factor slow_profile medium_profile fast_profile].
  - assert (W : can_wait 2 5).
    { intros a H. assert (C : (a = 0 \/ a = 1 \/ a = 2 \/ a = 3)%Z) by lia.
      destruct C as [-> | [-> | [-> | ->]]]; (split; [discriminate | reflexivity]). }
    destruct (Shape 5%Z 2%Q ltac:(lia) W)
      as (r & w' & j & E & N & Hj & Ht).
    exists r, w', (retry_trace 2 0 j ++ [EvInvoke]).
    rewrite Count. repeat split; try assumption; try lia.
    assert (J : (j <= 4)%nat) by lia.
    do 5 (destruct j as [| j]; [vm_compute; discriminate |]). lia.
  - assert (W : can_wait (3 # 2) 3).
    { intros a H. assert (C : (a = 0 \/ a = 1)%Z) by lia.
      destruct C as [-> | ->]; (split; [discriminate | reflexivity]). }
    destruct (Shape 3%Z (3 # 2)%Q ltac:(lia) W)
      as (r & w' & j & E & N & Hj & Ht).
    exists r, w', (retry_trace (3 # 2) 0 j ++ [EvInvoke]).
    rewrite Count. repeat split; try assumption; try lia.
    do 3 (destruct j as [| j]; [vm_compute; discriminate |]). lia.
  - assert (W : can_wait 1 2).
    { intros a H. assert (C : a = 0%Z) by lia.
      subst a. split; [discriminate | reflexivity]. }
    destruct (Shape 2%Z 1%Q ltac:(lia) W)
      as (r & w' & j & E & N & Hj & Ht).
    exists r, w', (retry_trace 1 0 j ++ [EvInvoke]).
    rewrite Count. repeat split; try assumption; try lia.
    do 2 (destruct j as [| j]; [vm_compute; discriminate |]). lia.
Qed.


(** With a single attempt the backoff factor plays no part, whatever it
    is: the operation is called once, nothing is slept, and its result or
    its failure is the outcome. *)
Remark smart_retry_single_attempt (bf : pyfloat) (w : world host) :
  smart_retry P func 1 bf w
    = (match fst (func (w_host w)) with
       | Ok v => Ok (Some v)
       | Raise e => Raise e
       end,
       World (snd (func (w_host w))) (default_timeout w) (trace w ++ [EvInvoke])).
Proof.
  unfold smart_retry, range. cbn [Z.to_nat Pos.to_nat Pos.iter_op seq map Z.of_nat].
  destruct (func (w_host w)) as [[v | e] h] eqn:E; cbn [fst snd].
  - now apply attempt_returns.
  - now apply (attempt_fails_last P func 1).
Qed.

End RetryOutcomes.



(** ** Probing, beyond the selection *)

Section ProbingEffects.
Context {host : Type} (P : Platform host).
Import NetworkUtils NetworkOptimizer Spec.

Lemma now_world (w : world host) :
  now P w = (Ok (fst (time_time host P (w_host w))),
             World (snd (time_time host P (w_host w))) (default_timeout w) (trace w)).
Proof.
  unfold now, on_host. now destruct (time_time host P (w_host w)).
Qed.

Lemma resolve_world (domain : string) (w : world host) :
  resolve P domain w
    = (fst (gethostbyname host P domain (default_timeout w) (w_host w)),
       World (snd (gethostbyname host P domain (default_timeout w) (w_host w)))
             (default_timeout w) (trace w)).
Proof.
  unfold resolve.
  now destruct (gethostbyname host P domain (default_timeout w) (w_host w)).
Qed.

Lemma setdefaulttimeout_refuses (t : Q) (w : world host) :
  ~ is_duration t -> exists e, setdefaulttimeout (Some t) w = (Raise e, w).
Proof.
  intros N. unfold setdefaulttimeout.
  destruct (fits_time t) eqn:F; cbn [negb]; [| now eexists].
  destruct (is_lt (t ?= 0)%Q) eqn:L; [now eexists |].
  exfalso. apply N. split.
  - destruct (Qlt_le_dec t 0) as [C | C]; [| exact C].
    rewrite (is_lt_neg t C) in L. discriminate L.
  - unfold fits_time in F. apply andb_prop in F. destruct F as [_ F].
    apply Bool.negb_true_iff in F. apply Qnot_le_lt. intros C.
    apply Qle_bool_iff in C. congruence.
Qed.

Lemma dns_lookup_test_behaviour_holds (dns_server test_domain : string)
    (timeout : Q) (w : world host) :
  valid_timeout (default_timeout w) ->
  (~ is_duration timeout ->
   dns_lookup_test P dns_server test_domain timeout w
     = (Ok PosInf, World (w_host w) (default_timeout w) (trace w))) /\
  (forall t0 h1 r h2,
     is_duration timeout ->
     time_time host P (w_host w) = (t0, h1) ->
     gethostbyname host P test_domain (Some timeout) h1 = (r, h2) ->
     match r with
     | Raise _ =>
         dns_lookup_test P dns_server test_domain timeout w
           = (Ok PosInf, World h2 (default_timeout w) (trace w))
     | Ok _ =>
         dns_lookup_test P dns_server test_domain timeout w
           = (Ok (Finite ((fst (time_time host P h2) - t0) * 1000)),
              World (snd (time_time host P h2)) (default_timeout w) (trace w))
     end).
Proof.
  intros V. split.
  - intros N. unfold dns_lookup_test, getdefaulttimeout, bind at 1, try_except.
    unfold bind at 1.
    destruct (setdefaulttimeout_refuses timeout w N) as (e & ->).
    unfold bind, ret.
    rewrite (setdefaulttimeout_valid (default_timeout w)) by exact V.
    reflexivity.
  - intros t0 h1 r h2 N Et Er.
    destruct r as [ip | e];
      unfold dns_lookup_test, getdefaulttimeout, bind at 1, try_except;
      unfold bind at 1;
      rewrite (setdefaulttimeout_valid (Some timeout)) by exact N;
      unfold bind at 1; rewrite now_world;
      cbn [w_host default_timeout trace fst snd];
      rewrite Et; cbn [fst snd];
      unfold bind at 1; rewrite resolve_world;
      cbn [w_host default_timeout trace];
      rewrite Er; cbn [fst snd].
    + unfold bind at 1. rewrite now_world. cbn [w_host default_timeout trace].
      unfold bind, ret.
      rewrite (setdefaulttimeout_valid (default_timeout w)) by exact V.
      reflexivity.
    + unfold bind, ret.
      rewrite (setdefaulttimeout_valid (default_timeout w)) by exact V.
      reflexivity.
Qed.


(** A lookup leaves the trace and the default timeout as they were. *)
Lemma dns_lookup_test_world (dns_server test_domain : string) (timeout : Q)
    (w : world host) :
  valid_timeout (default_timeout w) ->
  exists v h,
    dns_lookup_test P dns_server test_domain timeout w
      = (Ok v, World h (default_timeout w) (trace w)) /\
    measured v.
Proof.
  intros V. destruct (dns_lookup_test_behaviour_holds dns_server test_domain timeout w V)
    as [Neg Pos].
  destruct (fits_time timeout) eqn:F; [destruct (Qlt_le_dec timeout 0) as [N | N] |].
  - rewrite Neg; [now eexists _, _ |].
    intros [C _]. exact (Qlt_not_le _ _ N C).
  - assert (D : is_duration timeout).
    { split; [exact N |].
      unfold fits_time in F. apply andb_prop in F. destruct F as [_ F].
      apply Bool.negb_true_iff in F. apply Qnot_le_lt. intros C.
      apply Qle_bool_iff in C. congruence. }
    destruct (time_time host P (w_host w)) as [t0 h1] eqn:Et.
    destruct (gethostbyname host P test_domain (Some timeout) h1) as [r h2] eqn:Er.
    specialize (Pos t0 h1 r h2 D eq_refl Er).
    destruct r; rewrite Pos; now eexists _, _.
  - rewrite Neg; [now eexists _, _ |].
    intros D. rewrite (fits_time_duration _ D) in F. discriminate F.
Qed.

Lemma ping_dns_server_behaviour_holds (self : NetworkOptimizer) (dns_ip : string)
    (timeout : Z) (w : world host) :
  exists v h,
    ping_dns_server P self dns_ip timeout w
      = (Ok v, World h (default_timeout w)
                     (trace w ++ [EvRun (ping_command self dns_ip timeout)])) /\
    measured v /\
    (forall t0 h1 r h2,
       time_time host P (w_host w) = (t0, h1) ->
       subprocess_run host P (ping_command self dns_ip timeout)
         (Some (timeout + 1)%Z) h1 = (r, h2) ->
       match r with
       | Ok result =>
           if (returncode result =? 0)%Z
           then v = Finite ((fst (time_time host P h2) - t0) * 1000)
           else v = PosInf
       | Raise _ => v = PosInf /\ h = h2
       end).
Proof.
  unfold ping_dns_server, try_except.
  fold (ping_command self dns_ip timeout).
  set (cmd := ping_command self dns_ip timeout).
  unfold bind at 1. rewrite now_world.
  destruct (time_time host P (w_host w)) as [t0 h1] eqn:Et. cbn [fst snd].
  unfold bind at 1, run, bind at 1, emit, on_host. cbn [w_host default_timeout trace].
  destruct (subprocess_run host P cmd (Some (timeout + 1)%Z) h1) as [[result | e] h2] eqn:Er.
  - unfold bind at 1. rewrite now_world. cbn [w_host default_timeout trace].
    destruct (returncode result =? 0)%Z eqn:Rc; unfold ret;
      eexists _, _; (split; [reflexivity |]); (split; [exact I |]);
      intros t0' h1' r' h2' Et' Er';
      injection Et' as <- <-; rewrite Er in Er'; injection Er' as <- <-;
      now rewrite Rc.
  - unfold ret. eexists _, _; (split; [reflexivity |]); (split; [exact I |]).
    intros t0' h1' r' h2' Et' Er'.
    injection Et' as <- <-. rewrite Er in Er'. injection Er' as <- <-.
    now split.
Qed.

(** [ping_dns_server] never raises and does not touch the socket timeout:
    it runs one [ping] of the address, with a process timeout one second
    above the ping timeout, and answers a latency or [inf]; the answer is
    [inf] whenever the command does not end with exit code 0, be it a
    failure to start, a timeout or another exit code. *)
Theorem ping_dns_server_behaviour (self : NetworkOptimizer) (dns_ip : string)
    (timeout : Z) (w : world host) :
  exists v h,
    ping_dns_server P self dns_ip timeout w
      = (Ok v, World h (default_timeout w)
                     (trace w ++ [EvRun (ping_command self dns_ip timeout)])) /\
    measured v /\
    (forall t0 h1 r h2,
       time_time host P (w_host w) = (t0, h1) ->
       subprocess_run host P (ping_command self dns_ip timeout)
         (Some (timeout + 1)%Z) h1 = (r, h2) ->
       match r with
       | Ok result =>
           if (returncode result =? 0)%Z
           then v = Finite ((fst (time_time host P h2) - t0) * 1000)
           else v = PosInf
       | Raise _ => v = PosInf /\ h = h2
       end).
Proof. apply ping_dns_server_behaviour_holds. Qed.

Lemma lookup_loop_world (server : string) (test_domains : list string) :
  forall (lookup_times : list pyfloat) (w : world host),
    valid_timeout (default_timeout w) ->
    Forall finite lookup_times ->
    exists l h,
      lookup_loop P server test_domains lookup_times w
        = (Ok l, World h (default_timeout w) (trace w)) /\
      Forall finite l.
Proof.
  induction test_domains as [| domain rest IH]; intros lookup_times w V F.
  - exists lookup_times, (w_host w). split; [now destruct w | exact F].
  - cbn [lookup_loop]. unfold bind at 1.
    destruct (dns_lookup_test_world server domain 3 w V) as (v & h1 & -> & Mv).
    destruct (IH (if fne v PosInf then lookup_times ++ [v] else lookup_times)
                 (World h1 (default_timeout w) (trace w)) V) as (l & h2 & E & Fl).
    + destruct v; try contradiction; cbn; [| exact F].
      apply Forall_app. split; [exact F | now constructor].
    + cbn [default_timeout trace] in E. now exists l, h2.
Qed.

(** The benchmark loop runs one [ping] per candidate, to its first
    address, in the order of the catalogue, and nothing else. *)
Lemma servers_loop_world (self : NetworkOptimizer) (test_domains : list string)
    (items : list (string * list string)) :
  forall (results : list (string * dns_result)) (w : world host),
    valid_timeout (default_timeout w) ->
    Forall (fun it => snd it <> []) items ->
    exists results' h,
      servers_loop P self items test_domains results w
        = (Ok results',
           World h (default_timeout w) (trace w ++ map (ping_of self) items)).
Proof.
  induction items as [| [name addrs] rest IH]; intros results w V NE.
  - exists results, (w_host w). cbn. rewrite app_nil_r. now destruct w.
  - cbn [servers_loop].
    inversion NE as [| ? ? NE1 NE2]; subst. cbn in NE1.
    destruct addrs as [| primary others]; [congruence |].
    unfold bind at 1, lift at 1. cbn [item nth_error].
    unfold bind at 1.
    destruct (ping_dns_server_behaviour_holds self primary 3 w) as (pt & h1 & -> & _ & _).
    unfold bind at 1.
    destruct (lookup_loop_world primary test_domains []
                (World h1 (default_timeout w)
                       (trace w ++ [EvRun (ping_command self primary 3)]))
                V (Forall_nil _))
      as (lt & h2 & -> & Fl).
    cbn [default_timeout trace].
    assert (A : exists avg,
       (match lt with
        | [] => ret PosInf
        | _ => lift (fdiv (fsum lt) (of_int (Z.of_nat (List.length lt))))
        end)
         (World h2 (default_timeout w)
                (trace w ++ [EvRun (ping_command self primary 3)]))
       = (Ok avg, World h2 (default_timeout w)
                        (trace w ++ [EvRun (ping_command self primary 3)]))).
    { destruct lt as [| x lt'].
      - now exists PosInf.
      - destruct (average_finite (x :: lt')) as [q Eq]; [discriminate | exact Fl |].
        exists (Finite q). unfold lift. now rewrite Eq. }
    destruct A as (avg & Ea).
    unfold bind at 1. rewrite Ea.
    destruct (IH (results ++
                  [(name, DnsResult (primary :: others) pt avg (fadd pt avg))])
                 (World h2 (default_timeout w)
                        (trace w ++ [EvRun (ping_command self primary 3)]))
                 V NE2) as (results' & h3 & E).
    cbn [default_timeout trace] in E. exists results', h3. rewrite E.
    cbn [map]. unfold ping_of at 2. cbn [snd hd].
    now rewrite <- app_assoc.
Qed.

(** The first of the entries with the lowest key wins: every element
    before the one [min] returns has a strictly higher key. *)
Lemma min_from_first {A : Type} (key : A -> pyfloat) (l : list A) :
  forall best,
    Forall (fun x => measured (key x)) (best :: l) ->
    exists l1 l2,
      best :: l = l1 ++ min_from key best l :: l2 /\
      forall x, In x l1 -> flt (key (min_from key best l)) (key x) = true.
Proof.
  induction l as [| y l IH]; intros best F.
  - exists [], []. split; [reflexivity | intros x []].
  - inversion F as [| ? ? Mb F']; subst.
    inversion F' as [| ? ? My Fl]; subst.
    cbn [min_from]. destruct (flt (key y) (key best)) eqn:E.
    + destruct (IH y F') as (l1 & l2 & D & L).
      destruct (min_from_spec key l y F') as [_ Lmin].
      exists (best :: l1), l2. split; [cbn; now rewrite D |].
      intros x [<- | Hx]; [| now apply L].
      specialize (Lmin y (or_introl eq_refl)).
      set (m := min_from key y l) in *.
      assert (Mm : measured (key m)).
      { destruct (min_from_spec key l y F') as [I _].
        rewrite Forall_forall in F'. now apply F'. }
      destruct (key m), (key y), (key best); cbn in *; try tauto; try discriminate.
      apply flt_finite. apply flt_finite in E. lra.
    + assert (Fb : Forall (fun x => measured (key x)) (best :: l)) by now constructor.
      destruct (IH best Fb) as (l1 & l2 & D & L).
      set (m := min_from key best l) in *.
      destruct l1 as [| b l1'].
      * cbn in D. injection D as Dm Dl.
        exists [], (y :: l2). split; [cbn; now rewrite <- Dm, Dl | intros x []].
      * cbn in D. injection D as <- Dl.
        exists (best :: y :: l1'), l2. split; [cbn; now rewrite Dl |].
        intros x [<- | [<- | Hx]].
        -- apply L. now left.
        -- specialize (L best (or_introl eq_refl)).
           destruct (key m), (key y), (key best); cbn in *;
             try tauto; try discriminate.
           apply flt_finite. apply flt_finite in L. apply flt_finite_false in E. lra.
        -- apply L. now right.
Qed.

Lemma benchmark_world (self : NetworkOptimizer)
    (test_domains : option (list string)) (w : world host) :
  valid_timeout (default_timeout w) ->
  exists results best h,
    servers_loop P self DNS_SERVERS
      (match test_domains with
       | None => default_test_domains
       | Some d => d
       end) [] w
      = (Ok results,
         World h (default_timeout w) (trace w ++ map (ping_of self) DNS_SERVERS)) /\
    min_by (fun x => total_score (snd x)) results = Ok best /\
    Forall (entry_ok DNS_SERVERS) results /\
    benchmark_dns_servers P self test_domains w
      = (select_best self results,
         World h (default_timeout w) (trace w ++ map (ping_of self) DNS_SERVERS)).
Proof.
  intros V.
  set (domains := match test_domains with None => _ | Some d => d end).
  assert (NE : Forall (fun it : string * list string => snd it <> []) DNS_SERVERS)
    by (repeat constructor; discriminate).
  destruct (servers_loop_world self domains DNS_SERVERS [] w V NE) as (results & h & E).
  destruct (servers_loop_spec P self DNS_SERVERS domains DNS_SERVERS [] w V
              (incl_refl _) NE (Forall_nil _)) as (r' & w' & E' & _ & F & N).
  rewrite E in E'. injection E' as <- <-.
  destruct results as [| first others]; [unfold DNS_SERVERS in N; discriminate N |].
  exists (first :: others), (min_from (fun x => total_score (snd x)) first others), h.
  split; [exact E |]. split; [reflexivity |]. split; [exact F |].
  unfold benchmark_dns_servers. fold domains. unfold bind. rewrite E. reflexivity.
Qed.

Lemma benchmark_outcome (self : NetworkOptimizer)
    (test_domains : option (list string)) (w : world host) :
  valid_timeout (default_timeout w) ->
  exists self' answer h,
    benchmark_dns_servers P self test_domains w
      = (Ok (self', answer),
         World h (default_timeout w)
               (trace w ++ map (fun ip => EvRun (ping_command self ip 3))
                               primary_addresses)) /\
    system_info_os self' = system_info_os self /\
    match answer with
    | (Some name, Some addresses) =>
        best_dns self' = Some name /\ In (name, addresses) DNS_SERVERS
    | (None, None) => self' = self
    | _ => False
    end.
Proof.
  intros V.
  destruct (benchmark_world self test_domains w V) as (results & best & h & _ & B & F & E).
  rewrite E. unfold select_best. rewrite B.
  assert (Ib : In best results).
  { destruct results as [| first others]; [discriminate B |].
    cbn [min_by] in B. injection B as <-.
    assert (FM : Forall (fun x => measured (total_score (snd x))) (first :: others)).
    { eapply Forall_impl; [| exact F]. intros e (_ & Me & _). exact Me. }
    now destruct (min_from_spec _ others first FM). }
  rewrite Forall_forall in F. destruct (F best Ib) as (Ic & _ & _).
  destruct (fne (total_score (snd best)) PosInf); eexists _, _, h;
    (split; [reflexivity |]); cbn; auto.
Qed.


(** Ties go to the candidate listed first: every candidate measured before
    the one returned has a strictly higher score. *)
Theorem benchmark_dns_servers_first_minimum (self self' : NetworkOptimizer)
    (test_domains : option (list string)) (w w' : world host)
    (name : string) (addresses : list string) :
  valid_timeout (default_timeout w) ->
  benchmark_dns_servers P self test_domains w
    = (Ok (self', (Some name, Some addresses)), w') ->
  exists earlier r later,
    servers_loop P self DNS_SERVERS
      (match test_domains with
       | None => default_test_domains
       | Some d => d
       end) [] w
      = (Ok (earlier ++ (name, r) :: later), w') /\
    servers r = addresses /\
    forall e, In e earlier -> flt (total_score r) (total_score (snd e)) = true.
Proof.
  intros V Eb.
  destruct (benchmark_world self test_domains w V) as (results & best & h & E & B & F & E2).
  rewrite E2 in Eb. injection Eb as Es <-.
  destruct results as [| first others]; [discriminate B |].
  cbn [min_by] in B. injection B as <-.
  assert (FM : Forall (fun x => measured (total_score (snd x))) (first :: others)).
  { eapply Forall_impl; [| exact F]. intros e (_ & Me & _). exact Me. }
  destruct (min_from_first (fun x => total_score (snd x)) others first FM)
    as (l1 & l2 & D & L).
  unfold select_best in Es. cbn [min_by] in Es.
  set (best := min_from (fun x => total_score (snd x)) first others) in *.
  destruct (fne (total_score (snd best)) PosInf); [| discriminate Es].
  injection Es as _ En Ea.
  exists l1, (snd best), l2. rewrite E, D. subst name.
  split; [now destruct best |]. split; [exact Ea | exact L].
Qed.

(** What the DNS benchmark does to the object: with a winner, [best_dns]
    is its name and the addresses returned are those of that name in the
    catalogue; without one, the object is untouched, so [best_dns] keeps
    whatever an earlier benchmark left there. *)
Theorem benchmark_dns_servers_best_dns (self : NetworkOptimizer)
    (test_domains : option (list string)) (w : world host) :
  valid_timeout (default_timeout w) ->
  exists self' answer w',
    benchmark_dns_servers P self test_domains w = (Ok (self', answer), w') /\
    system_info_os self' = system_info_os self /\
    match answer with
    | (Some name, Some addresses) =>
        best_dns self' = Some name /\ In (name, addresses) DNS_SERVERS
    | (None, None) => self' = self
    | _ => False
    end.
Proof.
  intros V.
  destruct (benchmark_outcome self test_domains w V) as (self' & answer & h & E & O & A).
  eexists self', answer, _. split; [exact E |]. split; [exact O | exact A].
Qed.

(** A name of the catalogue is answered from the catalogue: its two
    addresses come back and nothing is probed or changed. *)
Theorem get_dns_servers_named (self : NetworkOptimizer) (name : string)
    (addresses : list string) (w : world host) :
  In (name, addresses) DNS_SERVERS ->
  get_dns_servers P self name w = (Ok (self, Some addresses), w).
Proof.
  intros [H | [H | [H | [H | []]]]]; injection H as <- <-; reflexivity.
Qed.

(** Any other choice, ['auto'] or a name the catalogue does not have,
    runs the benchmark: the answer is that of [benchmark_dns_servers],
    hence [None] or the addresses of a candidate, and an unknown name is
    not an error. *)
Theorem get_dns_servers_falls_back (self : NetworkOptimizer)
    (dns_choice : string) (w : world host) :
  valid_timeout (default_timeout w) ->
  dict_get DNS_SERVERS dns_choice = None ->
  get_dns_servers P self dns_choice w = get_dns_servers P self "auto" w /\
  exists self' answer w',
    benchmark_dns_servers P self None w = (Ok (self', answer), w') /\
    get_dns_servers P self dns_choice w = (Ok (self', snd answer), w') /\
    match snd answer with
    | Some addresses => exists name, In (name, addresses) DNS_SERVERS
    | None => True
    end.
Proof.
  intros V D.
  assert (G : get_dns_servers P self dns_choice w = get_dns_servers_auto P self w).
  { unfold get_dns_servers. rewrite D. now destruct (String.eqb dns_choice "auto"). }
  split; [now rewrite G |].
  destruct (benchmark_outcome self None w V)
    as (self' & answer & h & E & _ & A).
  set (w' := World h _ _) in E.
  exists self', answer, w'. split; [exact E |]. split.
  - rewrite G. unfold get_dns_servers_auto, bind, ret. now rewrite E.
  - destruct answer as [[name |] [addresses |]]; cbn; try tauto.
    destruct A as [_ I]. now exists name.
Qed.

End ProbingEffects.

(** ** Bandwidth, beyond the fallback *)

Section BandwidthValues.
Context {host : Type} (P : Platform host).
Import NetworkUtils NetworkOptimizer Spec.

Lemma download_loop_world (start_time : Q) (chunks : list chunk_read) :
  forall (data_downloaded : Z) (w : world host),
    exists r h,
      download_loop P start_time chunks data_downloaded w
        = (r, World h (default_timeout w) (trace w)).
Proof.
  induction chunks as [| [len | e] rest IH]; intros data_downloaded w.
  - exists (Ok data_downloaded), (w_host w). now destruct w.
  - cbn [download_loop]. unfold bind. rewrite now_world.
    destruct (is_lt (5 ?= fst (time_time host P (w_host w)) - start_time)%Q).
    + now eexists _, _.
    + destruct (IH (data_downloaded + len)%Z
                   (World (snd (time_time host P (w_host w)))
                          (default_timeout w) (trace w))) as (r & h & E).
      now exists r, h.
  - exists (Raise e), (w_host w). now destruct w.
Qed.

Lemma fdiv_finite (a : Q) (b : pyfloat) (v : pyfloat) :
  finite b -> fdiv (Finite a) b = Ok v -> finite v.
Proof.
  destruct b as [y | | |]; try contradiction. intros _. unfold fdiv.
  destruct (Qeq_bool y 0); [discriminate |].
  intros E. injection E as <-. exact I.
Qed.

Lemma measure_bandwidth_world (test_url : string) (timeout : Z) (w : world host) :
  exists r h,
    measure_bandwidth P test_url timeout w
      = (r, World h (default_timeout w) (trace w)) /\
    forall v, r = Ok v -> finite v.
Proof.
  unfold measure_bandwidth.
  unfold bind at 1, on_host at 1.
  destruct (import_requests host P (w_host w)) as [[] | e].
  2: { eexists _, _. split; [reflexivity | discriminate]. }
  unfold bind at 1. rewrite now_world. cbn [w_host default_timeout trace].
  destruct (time_time host P (w_host w)) as [t0 h1]. cbn [fst snd].
  unfold bind at 1, on_host at 1. cbn [w_host default_timeout trace].
  destruct (requests_get host P test_url timeout h1) as [[chunks | e] h2].
  2: { eexists _, _. split; [reflexivity | discriminate]. }
  unfold bind at 1.
  destruct (download_loop_world t0 chunks 0 (World h2 (default_timeout w) (trace w)))
    as ([data | e] & h3 & ->); cbn [default_timeout trace].
  2: { eexists _, _. split; [reflexivity | discriminate]. }
  unfold bind at 1. rewrite now_world. cbn [w_host default_timeout trace].
  unfold bind, lift.
  destruct (fdiv (of_int data) _) as [bps | e] eqn:E1.
  2: { eexists _, _. split; [reflexivity | discriminate]. }
  apply fdiv_finite in E1; [| exact I].
  destruct bps as [b | | |]; try contradiction.
  eexists _, _. split; [reflexivity |].
  intros v Ev. cbn in Ev. injection Ev as <-. exact I.
Qed.

Lemma detect_bandwidth_world (test_url : string) (timeout : Z)
    (w : world host) :
  exists v h,
    detect_bandwidth P test_url timeout w
      = (Ok (Finite v), World h (default_timeout w) (trace w)).
Proof.
  unfold detect_bandwidth, try_except.
  destruct (measure_bandwidth_world test_url timeout w) as ([v | e] & h & -> & F).
  - specialize (F v eq_refl). destruct v as [q | | |]; try contradiction.
    now exists q, h.
  - now exists 10%Q, h.
Qed.

(** [detect_bandwidth] always answers a finite number, never an infinity
    or NaN, and leaves the trace and the default socket timeout as they
    were. *)
Theorem detect_bandwidth_is_finite (test_url : string) (timeout : Z)
    (w : world host) :
  exists v h,
    detect_bandwidth P test_url timeout w
      = (Ok (Finite v), World h (default_timeout w) (trace w)).
Proof. exact (detect_bandwidth_world test_url timeout w). Qed.

Lemma connections_for_range (q : Q) :
  exists n, connections_for (Finite q) = Ok n /\ (2 <= n <= 16)%Z.
Proof. rewrite connections_for_trunc. eexists. split; [reflexivity | lia]. Qed.


(** An empty response body is not a failure: with a clock that moved, the
    measurement is 0 Mbps (and not the 10 Mbps of the fallback); only when
    no time at all has passed does the division by zero bring the fallback
    in. *)
Theorem detect_bandwidth_empty_body (test_url : string) (timeout : Z)
    (w : world host) (t0 t1 : Q) (h1 h2 h3 : host) :
  import_requests host P (w_host w) = Ok tt ->
  time_time host P (w_host w) = (t0, h1) ->
  requests_get host P test_url timeout h1 = (Ok [], h2) ->
  time_time host P h2 = (t1, h3) ->
  exists v,
    detect_bandwidth P test_url timeout w
      = (Ok (Finite v), World h3 (default_timeout w) (trace w)) /\
    (v == if Qeq_bool (t1 - t0) 0 then 10 else 0)%Q.
Proof.
  intros Ei Et Eg Et1.
  unfold detect_bandwidth, try_except, measure_bandwidth.
  unfold bind at 1 2 3 4, on_host. rewrite Ei. cbn [w_host default_timeout trace].
  rewrite now_world. cbn [w_host default_timeout trace]. rewrite Et. cbn [fst snd].
  rewrite Eg. cbn [download_loop]. unfold ret at 1.
  unfold bind at 1. rewrite now_world. cbn [w_host default_timeout trace].
  rewrite Et1. cbn [fst snd].
  unfold bind, lift, fdiv at 1.
  destruct (Qeq_bool (t1 - t0) 0).
  - now exists 10%Q.
  - eexists. split; [reflexivity |]. cbn. ring.
Qed.

(** The five-second cut-off: when more than five seconds have passed after
    the first chunk, the loop stops there.  That chunk alone is counted,
    and the rest of the stream is never read, so an error further down is
    never met. *)
Theorem detect_bandwidth_cut_off (test_url : string) (timeout len : Z)
    (rest : list chunk_read) (w : world host)
    (t0 t1 t2 : Q) (h1 h2 h3 h4 : host) :
  import_requests host P (w_host w) = Ok tt ->
  time_time host P (w_host w) = (t0, h1) ->
  requests_get host P test_url timeout h1 = (Ok (Chunk len :: rest), h2) ->
  time_time host P h2 = (t1, h3) ->
  (5 < t1 - t0)%Q ->
  time_time host P h3 = (t2, h4) ->
  (0 < t2 - t0)%Q ->
  detect_bandwidth P test_url timeout w
    = (Ok (Finite (inject_Z len * / (t2 - t0) * 8 * / inject_Z (1024 * 1024))),
       World h4 (default_timeout w) (trace w)).
Proof.
  intros Ei Et Eg Et1 Cut Et2 Pos.
  unfold detect_bandwidth, try_except, measure_bandwidth.
  unfold bind at 1 2 3 4, on_host. rewrite Ei. cbn [w_host default_timeout trace].
  rewrite now_world. cbn [w_host default_timeout trace]. rewrite Et. cbn [fst snd].
  rewrite Eg. cbn [download_loop].
  unfold bind at 1. rewrite now_world. cbn [w_host default_timeout trace].
  rewrite Et1. cbn [fst snd].
  assert (C : is_lt (5 ?= t1 - t0)%Q = true).
  { pose proof (proj1 (Qlt_alt _ _) Cut) as C.
    destruct (5 ?= t1 - t0)%Q; (reflexivity || discriminate C). }
  rewrite C. unfold ret at 1.
  unfold bind at 1. rewrite now_world. cbn [w_host default_timeout trace].
  rewrite Et2. cbn [fst snd].
  unfold bind, lift, fdiv at 1.
  assert (Z0 : Qeq_bool (t2 - t0) 0 = false).
  { destruct (Qeq_bool (t2 - t0) 0) eqn:E; [| reflexivity].
    apply Qeq_bool_iff in E. rewrite E in Pos. discriminate Pos. }
  rewrite Z0. reflexivity.
Qed.

End BandwidthValues.

(** ** The network benchmark as a whole *)

Section NetworkBenchmark.
Context {host : Type} (P : Platform host).
Import NetworkUtils NetworkOptimizer Spec.

Lemma benchmark_network_outcome (self : NetworkOptimizer) (w : world host) :
  valid_timeout (default_timeout w) ->
  exists self' report h,
    benchmark_network P self w
      = (Ok (self', report),
         World h (default_timeout w)
               (trace w ++ map (fun ip => EvRun (ping_command self ip 3))
                               primary_addresses)) /\
    finite (bandwidth_mbps report) /\
    connections_for (bandwidth_mbps report) = Ok (optimal_connections report) /\
    (2 <= optimal_connections report <= 16)%Z /\
    report_best_dns report = best_dns self' /\
    (self' = self \/
     exists name addresses,
       best_dns self' = Some name /\ In (name, addresses) DNS_SERVERS).
Proof.
  intros V. unfold benchmark_network. unfold bind at 1.
  destruct (benchmark_outcome P self None w V) as (self' & answer & h & -> & _ & A).
  cbn [fst]. unfold bind at 1.
  set (w1 := World h _ _).
  destruct (detect_bandwidth_world P "http://www.google.com" 10 w1) as (v & h2 & ->).
  unfold get_optimal_concurrent_connections, bind, ret, lift.
  destruct (connections_for_range v) as (n & E & R). rewrite E.
  exists self', (NetworkReport (best_dns self') (Finite v) n), h2.
  split; [reflexivity |]. split; [exact I |]. split; [exact E |].
  split; [exact R |]. split; [reflexivity |].
  destruct answer as [[name |] [addresses |]]; try contradiction.
  - right. exists name, addresses. exact A.
  - now left.
Qed.


End NetworkBenchmark.

(** ** System queries and tuning, beyond the privilege check *)

Section TuningEffects.
Context {host : Type} (P : Platform host).
Import SystemNetworkTuner Spec.

Lemma split_on_lacks (sep : ascii) (v : string) :
  lacks sep v -> split_on sep v = [v].
Proof.
  induction v as [| c r IH]; [reflexivity |]. intros [N L]. cbn [split_on].
  destruct (Ascii.eqb_spec c sep) as [C | _]; [contradiction |].
  now rewrite (IH L).
Qed.

Lemma split_on_field (sep : ascii) (k v : string) :
  lacks sep k -> lacks sep v ->
  split_on sep (k ++ String sep v) = [k; v].
Proof.
  intros Lk Lv. induction k as [| c r IH].
  - cbn. rewrite Ascii.eqb_refl. now rewrite split_on_lacks.
  - destruct Lk as [N L]. cbn [append split_on].
    destruct (Ascii.eqb_spec c sep) as [C | _]; [contradiction |].
    now rewrite (IH L).
Qed.

(** On a system that is not Linux the two [sysctl] queries start no
    process and change nothing: the congestion algorithm is unknown
    ([None]) and BBR is reported unavailable. *)
Remark sysctl_queries_off_linux (self : SystemNetworkTuner) (w : world host) :
  String.eqb (os_type self) "linux" = false ->
  detect_tcp_congestion_algorithm P self w = (Ok None, w) /\
  is_bbr_available P self w = (Ok false, w).
Proof.
  intros H. unfold detect_tcp_congestion_algorithm, is_bbr_available, try_except.
  now rewrite H.
Qed.

(** On Linux, when [sysctl] answers [name = value], the congestion
    algorithm reported is the value without the white space around it, and
    BBR is available exactly when that value of the other query contains
    [bbr]. *)
Theorem sysctl_value_is_parsed (self : SystemNetworkTuner) (w : world host)
    (query : list string) (result : completed_process) (h : host)
    (name value : string) :
  String.eqb (os_type self) "linux" = true ->
  subprocess_run host P query None (w_host w) = (Ok result, h) ->
  returncode result = 0%Z ->
  strip (stdout result) = (name ++ String "=" value)%string ->
  lacks "=" name -> lacks "=" value ->
  (query = congestion_query ->
   detect_tcp_congestion_algorithm P self w
     = (Ok (Some (strip value)),
        World h (default_timeout w) (trace w ++ [EvRun congestion_query]))) /\
  (query = bbr_query ->
   is_bbr_available P self w
     = (Ok (contains "bbr" (strip value)),
        World h (default_timeout w) (trace w ++ [EvRun bbr_query]))).
Proof.
  intros L E R S Ln Lv. split; intros ->.
  - unfold detect_tcp_congestion_algorithm, try_except. rewrite L.
    unfold bind at 1, run, bind at 1, emit, on_host. cbn [w_host default_timeout trace].
    rewrite E, R, S. cbn [Z.eqb].
    unfold bind, lift, ret. now rewrite split_on_field.
  - unfold is_bbr_available, try_except. rewrite L.
    unfold bind at 1, run, bind at 1, emit, on_host. cbn [w_host default_timeout trace].
    rewrite E, R, S. cbn [Z.eqb].
    unfold bind, lift, ret. now rewrite split_on_field.
Qed.

(** On Linux a query that cannot be started, that ends with another exit
    code, or whose output has no [=] sign is not an error: the congestion
    algorithm is [None], BBR is unavailable, and in each case exactly one
    process was started. *)
Theorem sysctl_query_failures (self : SystemNetworkTuner) (w : world host)
    (query : list string) (r : pyresult completed_process) (h : host) :
  String.eqb (os_type self) "linux" = true ->
  subprocess_run host P query None (w_host w) = (r, h) ->
  match r with
  | Raise _ => True
  | Ok result => returncode result <> 0%Z \/ lacks "=" (strip (stdout result))
  end ->
  (query = congestion_query ->
   detect_tcp_congestion_algorithm P self w
     = (Ok None, World h (default_timeout w) (trace w ++ [EvRun congestion_query]))) /\
  (query = bbr_query ->
   is_bbr_available P self w
     = (Ok false, World h (default_timeout w) (trace w ++ [EvRun bbr_query]))).
Proof.
  intros L E F. split; intros ->.
  - unfold detect_tcp_congestion_algorithm, try_except. rewrite L.
    unfold bind at 1, run, bind at 1, emit, on_host. cbn [w_host default_timeout trace].
    rewrite E. destruct r as [result | e]; [| reflexivity].
    destruct (Z.eqb_spec (returncode result) 0) as [R | R]; [| reflexivity].
    destruct F as [F | F]; [contradiction |].
    unfold bind, lift, ret. now rewrite (split_on_lacks _ _ F).
  - unfold is_bbr_available, try_except. rewrite L.
    unfold bind at 1, run, bind at 1, emit, on_host. cbn [w_host default_timeout trace].
    rewrite E. destruct r as [result | e]; [| reflexivity].
    destruct (Z.eqb_spec (returncode result) 0) as [R | R]; [| reflexivity].
    destruct F as [F | F]; [contradiction |].
    unfold bind, lift, ret. now rewrite (split_on_lacks _ _ F).
Qed.

(** A system without a command set (anything but Linux, macOS and
    Windows) is not an error, but the two modes disagree on it: the dry run
    lists nothing and reports success, while the real run, privileged or
    not, executes nothing and reports failure; nothing is persisted. *)
Theorem unsupported_system (self : SystemNetworkTuner) (w : world host) :
  tunable (os_type self) = false ->
  get_network_optimization_commands P self w = (Ok [], w) /\
  apply_optimizations P self true w = (Ok true, w) /\
  apply_optimizations P self false w
    = (Ok false,
       World (w_host w) (default_timeout w) (trace w ++ [EvPrivilegeCheck])) /\
  create_persistent_config P self w = (Ok false, w).
Proof.
  unfold tunable. intros T.
  apply Bool.orb_false_iff in T. destruct T as [L T].
  apply Bool.orb_false_iff in T. destruct T as [D W].
  assert (G : forall w, get_network_optimization_commands P self w = (Ok [], w)).
  { intros w0. unfold get_network_optimization_commands. now rewrite L, D, W. }
  split; [apply G |]. split; [| split].
  - unfold apply_optimizations; cbn [negb].
    unfold bind at 1, ret at 1. unfold bind at 1. rewrite G. reflexivity.
  - unfold apply_optimizations; cbn [negb]. unfold bind at 1 2.
    destruct (check_root_privileges_spec P self w) as (b & ->).
    unfold ret at 1. destruct b; cbn [negb]; [| reflexivity].
    unfold bind at 1. rewrite G. reflexivity.
  - unfold create_persistent_config. now rewrite L.
Qed.

Lemma execute_commands_world (commands : list string) :
  forall (success_count : Z) (w : world host),
    exists n h,
      execute_commands P commands success_count w
        = (Ok n, World h (default_timeout w) (trace w ++ executed commands)) /\
      (success_count <= n <= success_count + Z.of_nat (List.length commands))%Z /\
      ((forall cmd h0, exists out err h1,
          subprocess_run host P cmd (Some 30%Z) h0 = (Ok (Completed 0 out err), h1)) ->
       n = (success_count + Z.of_nat (List.length commands))%Z) /\
      ((forall cmd h0,
          match fst (subprocess_run host P cmd (Some 30%Z) h0) with
          | Ok result => returncode result <> 0%Z
          | Raise _ => True
          end) ->
       n = success_count).
Proof.
  induction commands as [| cmd rest IH]; intros success_count w.
  - exists success_count, (w_host w). cbn. rewrite app_nil_r.
    split; [now destruct w |]. repeat split; lia.
  - cbn [execute_commands]. unfold bind at 1, try_except, bind at 1.
    unfold run, bind at 1, emit, on_host. cbn [w_host default_timeout trace].
    destruct (subprocess_run host P (split_ws cmd) (Some 30%Z) (w_host w))
      as [r h1] eqn:E.
    set (w1 := World h1 (default_timeout w) (trace w ++ [EvRun (split_ws cmd)])).
    assert (Step : exists sc,
      (match r with
       | Ok a => ret (if (returncode a =? 0)%Z then (success_count + 1)%Z
                      else success_count) w1
       | Raise e => ret success_count w1
       end) = (Ok sc, w1) /\
      (success_count <= sc <= success_count + 1)%Z /\
      ((forall cmd h0, exists out err h1,
          subprocess_run host P cmd (Some 30%Z) h0 = (Ok (Completed 0 out err), h1)) ->
       sc = (success_count + 1)%Z) /\
      ((forall cmd h0,
          match fst (subprocess_run host P cmd (Some 30%Z) h0) with
          | Ok result => returncode result <> 0%Z
          | Raise _ => True
          end) ->
       sc = success_count)).
    { destruct r as [result | e].
      - destruct (Z.eqb_spec (returncode result) 0) as [R | R].
        + exists (success_count + 1)%Z. split; [reflexivity |].
          split; [lia |]. split; [reflexivity |].
          intros F. specialize (F (split_ws cmd) (w_host w)).
          rewrite E in F. cbn in F. contradiction.
        + exists success_count. split; [reflexivity |].
          split; [lia |]. split; [| reflexivity].
          intros S. destruct (S (split_ws cmd) (w_host w)) as (out & err & h' & E').
          rewrite E in E'. injection E' as -> _. cbn in R. contradiction.
      - exists success_count. split; [reflexivity |].
        split; [lia |]. split; [| reflexivity].
        intros S. destruct (S (split_ws cmd) (w_host w)) as (out & err & h' & E').
        rewrite E in E'. discriminate E'. }
    destruct Step as (sc & Es & Bs & Ss & Fs).
    destruct (IH sc w1) as (n & h & E2 & B2 & S2 & F2).
    exists n, h. split.
    + unfold ret in *.
      destruct r as [result | e]; cbn in Es; injection Es as <-;
        rewrite E2; subst w1; cbn [default_timeout trace executed map];
        now rewrite <- app_assoc.
    + cbn [List.length]. repeat split; try lia.
      * intros S. rewrite (S2 S), (Ss S). lia.
      * intros F. rewrite (F2 F), (Fs F). lia.
Qed.






(** [create_persistent_config] never raises.  Off Linux it writes nothing
    and answers [False]; on Linux it makes one attempt to write the fixed
    file and answers whether the write went through. *)
Theorem create_persistent_config_behaviour (self : SystemNetworkTuner)
    (w : world host) :
  (String.eqb (os_type self) "linux" = false ->
   create_persistent_config P self w = (Ok false, w)) /\
  (String.eqb (os_type self) "linux" = true ->
   create_persistent_config P self w
     = (Ok (match fst (open_write host P config_file config_content (w_host w)) with
            | Ok _ => true
            | Raise _ => false
            end),
        World (snd (open_write host P config_file config_content (w_host w)))
              (default_timeout w) (trace w ++ [EvWrite config_file]))).
Proof.
  unfold create_persistent_config. split; intros ->; [reflexivity |].
  unfold try_except, bind, emit, on_host, ret; cbn [w_host default_timeout trace].
  destruct (open_write host P config_file config_content (w_host w)) as [[[] | e] h];
    reflexivity.
Qed.

Lemma detect_tcp_congestion_algorithm_world (self : SystemNetworkTuner)
    (w : world host) :
  exists r h,
    detect_tcp_congestion_algorithm P self w
      = (Ok r,
         World h (default_timeout w)
               (trace w ++ if String.eqb (os_type self) "linux"
                           then [EvRun congestion_query] else [])).
Proof.
  unfold detect_tcp_congestion_algorithm, try_except.
  destruct (String.eqb (os_type self) "linux").
  - unfold bind at 1.
    destruct (run_spec P congestion_query None w) as (r & h & ->).
    destruct r as [result | e]; [| now exists None, h].
    destruct (returncode result =? 0)%Z; [| now exists None, h].
    unfold bind, lift, ret.
    destruct (item _ 1) as [field | e]; now eexists _, h.
  - exists None, (w_host w). unfold ret. rewrite app_nil_r. now destruct w.
Qed.

Lemma read_buffer_size_world (name key : string)
    (settings : list (string * setting)) (w : world host) :
  exists r h,
    read_buffer_size P name key settings w
      = (r, World h (default_timeout w) (trace w ++ [EvRun ["sysctl"; name]])) /\
    match r with
    | Ok settings' =>
        settings' = settings \/ exists v, settings' = settings ++ [(key, SStr v)]
    | Raise _ => True
    end.
Proof.
  unfold read_buffer_size. unfold bind at 1.
  destruct (run_spec P ["sysctl"; name] None w) as (r & h & ->).
  destruct r as [result | e]; [| now exists (Raise e), h].
  destruct (returncode result =? 0)%Z.
  - unfold bind, lift, ret.
    destruct (item _ 1) as [field | e].
    + eexists _, h. split; [reflexivity |]. right. now eexists.
    + now exists (Raise e), h.
  - exists (Ok settings), h. split; [reflexivity | now left].
Qed.

Lemma benchmark_current_settings_only_reads_holds (self : SystemNetworkTuner)
    (w : world host) :
  exists settings h new,
    benchmark_current_settings P self w
      = (Ok settings, World h (default_timeout w) (trace w ++ new)) /\
    firstn 4 (map fst settings)
      = ["tcp_congestion_control"; "bbr_available"; "os_type"; "root_access"] /\
    incl (skipn 4 (map fst settings)) ["rmem_max"; "wmem_max"] /\
    (forall ev, In ev new ->
       ev = EvPrivilegeCheck \/ exists name, ev = EvRun ["sysctl"; name]) /\
    (String.eqb (os_type self) "linux" = false ->
     new = [EvPrivilegeCheck] /\ List.length settings = 4%nat).
Proof.
  unfold benchmark_current_settings. unfold bind at 1.
  destruct (detect_tcp_congestion_algorithm_world self w) as (tcp & h1 & ->).
  unfold bind at 1.
  set (w1 := World h1 _ _).
  destruct (is_bbr_available_spec P self w1) as (bbr & h2 & ->).
  unfold bind at 1.
  set (w2 := World h2 _ _).
  destruct (check_root_privileges_spec P self w2) as (root & ->).
  subst w2 w1. cbn [w_host default_timeout trace]. unfold bbr_probe.
  destruct (String.eqb (os_type self) "linux") eqn:L.
  - set (settings := [_; _; _; _]).
    set (w3 := World h2 _ _).
    unfold try_except at 1. unfold bind at 1.
    destruct (read_buffer_size_world "net.core.rmem_max" "rmem_max" settings w3)
      as (r1 & h4 & -> & S1).
    assert (Base : forall ev,
      In ev [EvRun congestion_query; EvRun bbr_query; EvPrivilegeCheck;
             EvRun ["sysctl"; "net.core.rmem_max"];
             EvRun ["sysctl"; "net.core.wmem_max"]] ->
      ev = EvPrivilegeCheck \/ exists name, ev = EvRun ["sysctl"; name]).
    { intros ev [<- | [<- | [<- | [<- | [<- | []]]]]];
        (now left) || (right; now eexists). }
    destruct r1 as [s1 | e1].
    + unfold try_except.
      set (w4 := World h4 _ _).
      destruct (read_buffer_size_world "net.core.wmem_max" "wmem_max" s1 w4)
        as (r2 & h5 & -> & S2).
      assert (K1 : firstn 4 (map fst s1)
                   = ["tcp_congestion_control"; "bbr_available"; "os_type"; "root_access"]
                   /\ incl (skipn 4 (map fst s1)) ["rmem_max"; "wmem_max"]).
      { destruct S1 as [-> | (v & ->)]; unfold settings; split; cbn;
          try reflexivity; intros x Hx; cbn in Hx |- *; intuition. }
      subst w4 w3. cbn [default_timeout trace].
      destruct r2 as [s2 | e2].
      * exists s2, h5, [EvRun congestion_query; EvRun bbr_query; EvPrivilegeCheck;
                         EvRun ["sysctl"; "net.core.rmem_max"];
                         EvRun ["sysctl"; "net.core.wmem_max"]].
        split; [now rewrite <- !app_assoc |].
        split; [| split; [| split; [exact Base | discriminate]]].
        -- destruct S2 as [-> | (v & ->)]; [apply K1 |].
           destruct S1 as [-> | (v1 & ->)]; unfold settings; reflexivity.
        -- destruct S2 as [-> | (v & ->)]; [apply K1 |].
           destruct S1 as [-> | (v1 & ->)]; unfold settings;
             intros x Hx; cbn in Hx |- *; intuition.
      * exists s1, h5, [EvRun congestion_query; EvRun bbr_query; EvPrivilegeCheck;
                         EvRun ["sysctl"; "net.core.rmem_max"];
                         EvRun ["sysctl"; "net.core.wmem_max"]].
        unfold ret. split; [now rewrite <- !app_assoc |].
        split; [apply K1 |]. split; [apply K1 |]. split; [exact Base | discriminate].
    + subst w3. cbn [default_timeout trace].
      exists settings, h4, [EvRun congestion_query; EvRun bbr_query; EvPrivilegeCheck;
                            EvRun ["sysctl"; "net.core.rmem_max"]].
      unfold ret. split; [now rewrite <- !app_assoc |].
      split; [reflexivity |]. split; [intros x [] |]. split; [| discriminate].
      intros ev Hev. apply Base. cbn in *. intuition.
  - exists [("tcp_congestion_control",
             match tcp with Some s => SStr s | None => SNone end);
            ("bbr_available", SBool bbr); ("os_type", SStr (os_type self));
            ("root_access", SBool root)], h2, [EvPrivilegeCheck].
    unfold ret. rewrite !app_nil_r.
    split; [reflexivity |]. split; [reflexivity |]. split; [intros x [] |].
    split; [| now split].
    intros ev [<- | []]. now left.
Qed.

(** [benchmark_current_settings] never raises and only reads: besides the
    privilege check it starts nothing but [sysctl <name>] queries, none at
    all off Linux.  The report always begins with the four entries
    [tcp_congestion_control], [bbr_available], [os_type] and [root_access];
    whatever follows is [rmem_max] or [wmem_max]. *)
Theorem benchmark_current_settings_only_reads (self : SystemNetworkTuner)
    (w : world host) :
  exists settings h new,
    benchmark_current_settings P self w
      = (Ok settings, World h (default_timeout w) (trace w ++ new)) /\
    firstn 4 (map fst settings)
      = ["tcp_congestion_control"; "bbr_available"; "os_type"; "root_access"] /\
    incl (skipn 4 (map fst settings)) ["rmem_max"; "wmem_max"] /\
    (forall ev, In ev new ->
       ev = EvPrivilegeCheck \/ exists name, ev = EvRun ["sysctl"; name]) /\
    (String.eqb (os_type self) "linux" = false ->
     new = [EvPrivilegeCheck] /\ List.length settings = 4%nat).
Proof. apply benchmark_current_settings_only_reads_holds. Qed.

End TuningEffects.

(** ** The command line, beyond the exit code of tuning *)

Section CommandLine.
Context {host : Type} (P : Platform host).
Import Spec.

(** The source checks come before everything else: without a source, or
    with a video and a YouTube address at once, [upload] exits with code 1
    and has done nothing, whatever tuning or network flags were given; a
    dry run of the tuning is not listed either. *)
Theorem upload_needs_one_source (a : Cli.args) (n : Cli.net_args) (w : world host) :
  (Cli.video a = None /\ Cli.youtube a = None) \/
  (Cli.truthy (Cli.video a) = true /\ Cli.truthy (Cli.youtube a) = true) ->
  Cli.upload P a w = (Ok (Cli.Exit 1), w) /\
  Cli.upload_network P a n w = (Ok (Cli.Ended 1), w).
Proof.
  intros H.
  assert (U : Cli.upload P a w = (Ok (Cli.Exit 1), w)).
  { unfold Cli.upload. destruct H as [[-> ->] | [V Y]]; [reflexivity |].
    rewrite V, Y. cbn.
    now destruct (andb (Cli.is_none (Cli.video a)) (Cli.is_none (Cli.youtube a))). }
  split; [exact U |].
  unfold Cli.upload_network, bind. now rewrite U.
Qed.

Lemma apply_optimizations_world (self : SystemNetworkTuner.SystemNetworkTuner)
    (dry_run : bool) (w : world host) :
  exists b h new,
    SystemNetworkTuner.apply_optimizations P self dry_run w
      = (Ok b, World h (default_timeout w) (trace w ++ new)) /\
    (forall path, ~ In (EvWrite path) new) /\
    (dry_run = true ->
     exists commands, new = bbr_probe self ++ listing commands).
Proof.
  unfold SystemNetworkTuner.apply_optimizations.
  assert (NoWriteProbe : forall path, ~ In (EvWrite path) (bbr_probe self)).
  { intros path. unfold bbr_probe.
    destruct (String.eqb _ _); cbn; intuition discriminate. }
  destruct dry_run; cbn [negb].
  - unfold bind at 1, ret at 1. unfold bind at 1.
    destruct (get_network_optimization_commands_spec P self w)
      as (commands & h & -> & _).
    unfold bind, ret. rewrite print_commands_spec. cbn [w_host default_timeout trace].
    exists true, h, (bbr_probe self ++ listing commands).
    split; [now rewrite <- app_assoc |]. split; [| now exists commands].
    intros path I. apply in_app_or in I. destruct I as [I | I].
    + now apply (NoWriteProbe path).
    + unfold listing in I. apply in_map_iff in I.
      destruct I as (c & C & _). discriminate C.
  - unfold bind at 1 2.
    destruct (check_root_privileges_spec P self w) as (b & ->).
    unfold ret at 1. destruct b; cbn [negb].
    + unfold bind at 1.
      set (w1 := World (w_host w) (default_timeout w) (trace w ++ [EvPrivilegeCheck])).
      destruct (get_network_optimization_commands_spec P self w1)
        as (commands & h1 & -> & _).
      unfold bind.
      destruct (execute_commands_world P commands 0
                  (World h1 (default_timeout w1) (trace w1 ++ bbr_probe self)))
        as (k & h & -> & _).
      unfold ret. subst w1. cbn [default_timeout trace].
      exists (0 <? k)%Z, h, ([EvPrivilegeCheck] ++ bbr_probe self ++ executed commands).
      split; [now rewrite <- !app_assoc |]. split; [| discriminate].
      intros path I. apply in_app_or in I. destruct I as [I | I].
      * cbn in I. intuition discriminate.
      * apply in_app_or in I. destruct I as [I | I].
        -- now apply (NoWriteProbe path).
        -- unfold executed in I. apply in_map_iff in I.
           destruct I as (c & C & _). discriminate C.
    + exists false, (w_host w), [EvPrivilegeCheck].
      split; [reflexivity |]. split; [| discriminate].
      intros path I. cbn in I. intuition discriminate.
Qed.

(** The tuning block in its two modes.  In dry-run mode, which wins when
    both flags are given, it only lists: no privilege check, no file
    written, the BBR query of Linux apart no process started.  In the
    other mode on Linux the persistent configuration file is always
    attempted last, whether the commands ran, failed, or were never tried,
    and nothing else is written. *)
Theorem tune_modes (a : Cli.args) (w : world host) :
  (Cli.tune_dry_run a = true ->
   exists commands h,
     Cli.tune P a w
       = (Ok (Cli.Exit 0),
          World h (default_timeout w)
                (trace w ++ bbr_probe (SystemNetworkTuner.init P (w_host w))
                         ++ listing commands))) /\
  (Cli.tune_dry_run a = false ->
   String.eqb (SystemNetworkTuner.os_type (SystemNetworkTuner.init P (w_host w)))
              "linux" = true ->
   exists new h,
     Cli.tune P a w
       = (Ok (Cli.Exit 0),
          World h (default_timeout w)
                (trace w ++ new ++ [EvWrite SystemNetworkTuner.config_file])) /\
     forall path, ~ In (EvWrite path) new).
Proof.
  set (self := SystemNetworkTuner.init P (w_host w)).
  split; intros D.
  - unfold Cli.tune. rewrite D. unfold bind at 1. unfold bind at 1.
    fold self.
    destruct (apply_optimizations_world self true w) as (b & h & new & -> & _ & L).
    destruct (L eq_refl) as (commands & ->).
    cbn [negb]. unfold bind, ret. now exists commands, h.
  - intros Lx. unfold Cli.tune. rewrite D. unfold bind at 1. unfold bind at 1.
    fold self.
    destruct (apply_optimizations_world self false w) as (b & h & new & -> & NW & _).
    cbn [negb]. unfold bind at 1. unfold bind at 1.
    unfold SystemNetworkTuner.create_persistent_config. rewrite Lx.
    unfold try_except, bind, emit, on_host, ret; cbn [w_host default_timeout trace].
    destruct (open_write host P _ _ h) as [[[] | e] h'];
      exists new, h'; (split; [now rewrite <- app_assoc | exact NW]).
Qed.


(** Without [--benchmark], the optimizer handed to the transfer: none for
    [--dns auto] without [--fast-net]; for another [--dns] alone, a fresh
    one and no measurement at all (the chosen server is not even looked
    up here); with [--fast-net], the one the network benchmark leaves, after
    its four pings and nothing else. *)
Remark network_stage_optimizer (n : Cli.net_args) (w : world host) :
  valid_timeout (default_timeout w) ->
  Cli.benchmark n = false ->
  if Cli.fast_net n
  then
    exists self' report h,
      NetworkOptimizer.benchmark_network P (NetworkOptimizer.init P (w_host w)) w
        = (Ok (self', report),
           World h (default_timeout w)
                 (trace w ++ map (fun ip =>
                                    EvRun (ping_command
                                             (NetworkOptimizer.init P (w_host w)) ip 3))
                                 primary_addresses)) /\
      Cli.network_stage P n w
        = (Ok (Cli.Transfer (Some self')),
           World h (default_timeout w)
                 (trace w ++ map (fun ip =>
                                    EvRun (ping_command
                                             (NetworkOptimizer.init P (w_host w)) ip 3))
                                 primary_addresses))
  else if String.eqb (Cli.dns n) "auto"
  then Cli.network_stage P n w = (Ok (Cli.Transfer None), w)
  else Cli.network_stage P n w
         = (Ok (Cli.Transfer (Some (NetworkOptimizer.init P (w_host w)))), w).
Proof.
  intros V B. unfold Cli.network_stage. rewrite B.
  destruct (Cli.fast_net n).
  - rewrite Bool.orb_true_r. unfold bind at 1. unfold bind at 1.
    destruct (benchmark_network_outcome P (NetworkOptimizer.init P (w_host w)) w V)
      as (self' & report & h & E & _).
    exists self', report, h. split; [exact E |]. now rewrite E.
  - rewrite Bool.orb_false_r.
    destruct (String.eqb (Cli.dns n) "auto"); reflexivity.
Qed.

End CommandLine.

(** ** Closed instances *)



Lemma benchmark_dns_servers_first_minimum_witness :
  exists earlier r later,
    NetworkOptimizer.servers_loop Bench.platform
      (NetworkOptimizer.Self None "linux") NetworkOptimizer.DNS_SERVERS
      NetworkOptimizer.default_test_domains [] Bench.linux_user
      = (Ok (earlier ++ ("cloudflare", r) :: later),
         snd (NetworkOptimizer.benchmark_dns_servers Bench.platform
                (NetworkOptimizer.Self None "linux") None Bench.linux_user)) /\
    NetworkOptimizer.servers r = ["1.1.1.1"; "1.0.0.1"] /\
    forall e, In e earlier ->
      flt (NetworkOptimizer.total_score r)
          (NetworkOptimizer.total_score (snd e)) = true.
Proof.
  apply (benchmark_dns_servers_first_minimum Bench.platform
           (NetworkOptimizer.Self None "linux")
           (NetworkOptimizer.Self (Some "cloudflare") "linux")
           None Bench.linux_user).
  - exact I.
  - vm_compute. reflexivity.
Defined.

Lemma benchmark_dns_servers_best_dns_witness :
  exists self' answer w',
    NetworkOptimizer.benchmark_dns_servers Bench.offline
      (NetworkOptimizer.Self (Some "quad9") "linux") None Bench.linux_user
      = (Ok (self', answer), w') /\
    NetworkOptimizer.system_info_os self' = "linux" /\
    match answer with
    | (Some name, Some addresses) =>
        NetworkOptimizer.best_dns self' = Some name /\
        In (name, addresses) NetworkOptimizer.DNS_SERVERS
    | (None, None) => self' = NetworkOptimizer.Self (Some "quad9") "linux"
    | _ => False
    end.
Proof.
  apply (benchmark_dns_servers_best_dns Bench.offline
           (NetworkOptimizer.Self (Some "quad9") "linux") None Bench.linux_user).
  exact I.
Defined.

Lemma get_dns_servers_named_witness :
  NetworkOptimizer.get_dns_servers Bench.offline
    (NetworkOptimizer.Self None "linux") "quad9" Bench.linux_user
    = (Ok (NetworkOptimizer.Self None "linux", Some ["9.9.9.9"; "149.112.112.112"]),
       Bench.linux_user).
Proof.
  apply (get_dns_servers_named Bench.offline).
  right. right. left. reflexivity.
Defined.

Lemma get_dns_servers_falls_back_witness :
  NetworkOptimizer.get_dns_servers Bench.platform
    (NetworkOptimizer.Self None "linux") "adguard" Bench.linux_user
  = NetworkOptimizer.get_dns_servers Bench.platform
      (NetworkOptimizer.Self None "linux") "auto" Bench.linux_user.
Proof.
  apply (get_dns_servers_falls_back Bench.platform
           (NetworkOptimizer.Self None "linux") "adguard" Bench.linux_user).
  - exact I.
  - reflexivity.
Defined.

Lemma detect_bandwidth_empty_body_witness :
  exists v,
    NetworkOptimizer.detect_bandwidth Bench.silent "http://www.google.com" 10
      Bench.linux_user
      = (Ok (Finite v),
         World (Bench.Machine "Linux" 1000 2 0) None []) /\
    (v == 0)%Q.
Proof.
  apply (detect_bandwidth_empty_body Bench.silent "http://www.google.com" 10
           Bench.linux_user 0 1
           (Bench.Machine "Linux" 1000 1 0) (Bench.Machine "Linux" 1000 1 0)
           (Bench.Machine "Linux" 1000 2 0)); reflexivity.
Defined.

Lemma detect_bandwidth_cut_off_witness :
  NetworkOptimizer.detect_bandwidth Bench.sluggish "http://www.google.com" 10
    Bench.linux_user
    = (Ok (Finite (inject_Z 8192 * / (12 - 0) * 8 * / inject_Z (1024 * 1024))),
       World (Bench.Machine "Linux" 1000 18 0) None []).
Proof.
  apply (detect_bandwidth_cut_off Bench.sluggish "http://www.google.com" 10 8192
           [ReadError (Exn "ChunkedEncodingError" "connection broken")]
           Bench.linux_user 0 6 12
           (Bench.Machine "Linux" 1000 6 0) (Bench.Machine "Linux" 1000 6 0)
           (Bench.Machine "Linux" 1000 12 0) (Bench.Machine "Linux" 1000 18 0));
    reflexivity.
Defined.


Lemma sysctl_value_is_parsed_witness :
  SystemNetworkTuner.is_bbr_available Bench.platform
    (SystemNetworkTuner.Self "linux" true) Bench.linux_user
    = (Ok (contains "bbr" (strip " reno cubic bbr")),
       World (Bench.Machine "Linux" 1000 0 1) None
             ([] ++ [EvRun SystemNetworkTuner.bbr_query])).
Proof.
  apply (sysctl_value_is_parsed Bench.platform
           (SystemNetworkTuner.Self "linux" true) Bench.linux_user
           SystemNetworkTuner.bbr_query
           (Completed 0 Bench.bbr_report EmptyString)
           (Bench.Machine "Linux" 1000 0 1)
           "net.ipv4.tcp_available_congestion_control " " reno cubic bbr");
    try reflexivity.
  - cbn. repeat (split; [discriminate |]). exact I.
  - cbn. repeat (split; [discriminate |]). exact I.
Defined.

Lemma sysctl_query_failures_witness :
  SystemNetworkTuner.detect_tcp_congestion_algorithm Bench.refusing
    (SystemNetworkTuner.Self "linux" true) Bench.linux_user
    = (Ok None,
       World (Bench.Machine "Linux" 1000 0 1) None
             ([] ++ [EvRun SystemNetworkTuner.congestion_query])).
Proof.
  apply (sysctl_query_failures Bench.refusing
           (SystemNetworkTuner.Self "linux" true) Bench.linux_user
           SystemNetworkTuner.congestion_query
           (Ok (Completed 1 EmptyString "permission denied"))
           (Bench.Machine "Linux" 1000 0 1)); try reflexivity.
  left. discriminate.
Defined.

Lemma unsupported_system_witness :
  SystemNetworkTuner.get_network_optimization_commands Bench.platform
    (SystemNetworkTuner.Self "freebsd" true) Bench.bsd_root = (Ok [], Bench.bsd_root) /\
  SystemNetworkTuner.apply_optimizations Bench.platform
    (SystemNetworkTuner.Self "freebsd" true) true Bench.bsd_root
    = (Ok true, Bench.bsd_root) /\
  SystemNetworkTuner.apply_optimizations Bench.platform
    (SystemNetworkTuner.Self "freebsd" true) false Bench.bsd_root
    = (Ok false,
       World (w_host Bench.bsd_root) (default_timeout Bench.bsd_root)
             (trace Bench.bsd_root ++ [EvPrivilegeCheck])) /\
  SystemNetworkTuner.create_persistent_config Bench.platform
    (SystemNetworkTuner.Self "freebsd" true) Bench.bsd_root
    = (Ok false, Bench.bsd_root).
Proof.
  apply (unsupported_system Bench.platform
           (SystemNetworkTuner.Self "freebsd" true) Bench.bsd_root).
  reflexivity.
Defined.




Lemma upload_needs_one_source_witness :
  Cli.upload Bench.platform (Cli.Args None None false true) Bench.linux_user
    = (Ok (Cli.Exit 1), Bench.linux_user) /\
  Cli.upload_network Bench.platform (Cli.Args None None false true)
    (Cli.NetArgs true "auto" false) Bench.linux_user
    = (Ok (Cli.Ended 1), Bench.linux_user).
Proof.
  apply (upload_needs_one_source Bench.platform (Cli.Args None None false true)
           (Cli.NetArgs true "auto" false) Bench.linux_user).
  left. split; reflexivity.
Defined.

